(** * OFW mock server: the fixture store and the request resolvers

    A shallow embedding of [app.py]: the in-memory [data_store], the
    [load_data] routine that fills it from the five JSON source files, the
    [require_auth] gate and the three gated handlers [get_folders],
    [get_messages] and [get_message].

    Python values are modelled by value.  A parsed JSON document is a
    [json] term; a Python [dict] is an association list in insertion
    order whose update keeps the position of an existing key; Python
    integers are [Z].  JSON numbers with a fraction are outside the
    model (the data model of the server only has integer ids and
    counts).  A handler returns either a response (body and HTTP status)
    or the exception it lets escape. *)

From Stdlib Require Import ZArith List String Ascii Bool Lia DecimalString.
From Stdlib Require DecimalPos.
Import ListNotations.
Local Open Scope string_scope.
Local Open Scope Z_scope.

Set Implicit Arguments.
Set Warnings "-register-all".

(** ** Python dictionaries, in insertion order *)

Section Dict.
Variables K V : Type.
Variable eqb : K -> K -> bool.

Definition dict := list (K * V).

(** [d.get(k)], [None] when the key is missing. *)
Fixpoint dict_get (d : dict) (k : K) : option V :=
  match d with
  | [] => None
  | (k', v) :: d' => if eqb k k' then Some v else dict_get d' k
  end.

(** [k in d] *)
Definition dict_mem (d : dict) (k : K) : bool :=
  match dict_get d k with Some _ => true | None => false end.

(** [d[k] = v]: an existing key keeps its place, a new one goes last. *)
Fixpoint dict_set (d : dict) (k : K) (v : V) : dict :=
  match d with
  | [] => [(k, v)]
  | (k', v') :: d' =>
      if eqb k k' then (k', v) :: d' else (k', v') :: dict_set d' k v
  end.

(** [d.values()] and [iter(d)] *)
Definition dict_values (d : dict) : list V := map snd d.
Definition dict_keys (d : dict) : list K := map fst d.
End Dict.

(** ** JSON values as [json.load] returns them *)

Inductive json : Type :=
| JNull                                   (* None *)
| JBool (b : bool)
| JNum (n : Z)
| JStr (s : string)
| JArr (l : list json)
| JObj (kvs : list (string * json)).      (* dict with str keys *)

(** Keys of the two id-indexed dictionaries of the store.  Python hashes
    [True] and [1] (and [False] and [0]) to the same key, so a boolean is
    stored as its integer. *)
Inductive pykey : Type :=
| KNone
| KInt (n : Z)
| KStr (s : string).

Definition pykey_eqb (a b : pykey) : bool :=
  match a, b with
  | KNone, KNone => true
  | KInt x, KInt y => Z.eqb x y
  | KStr x, KStr y => String.eqb x y
  | _, _ => false
  end.

(** Exceptions that the handlers and the loader let escape. *)
Inductive exn : Type :=
| JSONDecodeError
| AttributeError
| TypeError
| KeyError
| IndexError.

Inductive res (A : Type) : Type :=
| Ok (a : A)
| Raise (e : exn).
Arguments Raise {A} e.

Definition res_bind {A B} (r : res A) (k : A -> res B) : res B :=
  match r with
  | Ok a => k a
  | Raise e => Raise e
  end.

Declare Scope res_scope.
Delimit Scope res_scope with res.
Notation "x <- c ;; k" := (res_bind c (fun x => k))
  (at level 61, c at next level, right associativity) : res_scope.

Module Py.

(** [bool(v)] *)
Definition truthy (v : json) : bool :=
  match v with
  | JNull => false
  | JBool b => b
  | JNum n => negb (n =? 0)
  | JStr s => negb (String.eqb s "")
  | JArr l => match l with [] => false | _ => true end
  | JObj kvs => match kvs with [] => false | _ => true end
  end.

(** [isinstance(v, dict)] *)
Definition is_dict (v : json) : bool :=
  match v with JObj _ => true | _ => false end.

(** [v.get(k)]: only a dict has the method. *)
Definition get (v : json) (k : string) : res json :=
  match v with
  | JObj kvs =>
      Ok (match dict_get String.eqb kvs k with Some x => x | None => JNull end)
  | _ => Raise AttributeError
  end.

(** [k in v] for a dict [v] *)
Definition has_key (v : json) (k : string) : bool :=
  match v with
  | JObj kvs => dict_mem String.eqb kvs k
  | _ => false
  end.

(** [v[k]] for a dict [v] and a str [k] *)
Definition item (v : json) (k : string) : res json :=
  match v with
  | JObj kvs =>
      match dict_get String.eqb kvs k with
      | Some x => Ok x
      | None => Raise KeyError
      end
  | _ => Raise TypeError
  end.

(** [hash(v)] as a dictionary key; lists and dicts are unhashable. *)
Definition key (v : json) : res pykey :=
  match v with
  | JNull => Ok KNone
  | JBool b => Ok (KInt (if b then 1 else 0))
  | JNum n => Ok (KInt n)
  | JStr s => Ok (KStr s)
  | JArr _ | JObj _ => Raise TypeError
  end.

(** [v == n] for an int [n] *)
Definition eq_int (v : json) (n : Z) : bool :=
  match v with
  | JNum m => m =? n
  | JBool b => (if b then 1 else 0) =? n
  | _ => false
  end.

Definition chars (s : string) : list json :=
  map (fun c => JStr (String c EmptyString)) (list_ascii_of_string s).

(** [for x in v]: the sequence of values the loop visits. *)
Definition iter (v : json) : res (list json) :=
  match v with
  | JArr l => Ok l
  | JStr s => Ok (chars s)
  | JObj kvs => Ok (map JStr (dict_keys kvs))
  | _ => Raise TypeError
  end.

(** [v[0]] *)
Definition first (v : json) : res json :=
  match v with
  | JArr l => match l with x :: _ => Ok x | [] => Raise IndexError end
  | JStr s => match chars s with x :: _ => Ok x | [] => Raise IndexError end
  | JObj _ => Raise KeyError
  | _ => Raise TypeError
  end.

(** Slice bounds: a negative index counts from the end, and both ends
    are clamped to the sequence. *)
Definition clamp (len i : Z) : Z :=
  if i <? 0 then Z.max (i + len) 0 else Z.min i len.

(** [l[start:stop]] on a list *)
Definition slice_list {A} (l : list A) (start stop : Z) : list A :=
  let len := Z.of_nat (List.length l) in
  let lo := clamp len start in
  let hi := clamp len stop in
  firstn (Z.to_nat (hi - lo)) (skipn (Z.to_nat lo) l).

(** [v[start:stop]]: lists and strings can be sliced.  A string is
    taken as its sequence of [ascii] characters.  A dict given a slice
    raises KeyError from Python 3.12 on and TypeError before. *)
Definition slice (v : json) (start stop : Z) : res json :=
  match v with
  | JArr l => Ok (JArr (slice_list l start stop))
  | JStr s =>
      Ok (JStr (string_of_list_ascii
                  (slice_list (list_ascii_of_string s) start stop)))
  | JObj _ => Raise KeyError
  | _ => Raise TypeError
  end.

(** [len(v)] *)
Definition len (v : json) : res Z :=
  match v with
  | JArr l => Ok (Z.of_nat (List.length l))
  | JStr s => Ok (Z.of_nat (String.length s))
  | JObj kvs => Ok (Z.of_nat (List.length kvs))
  | _ => Raise TypeError
  end.

(** [str(n)] for an int *)
Definition str_of_int (n : Z) : string :=
  NilZero.string_of_int (Z.to_int n).

End Py.

(** ** The in-memory data store *)

Record store : Type := mkStore {
  folders : json;                      (* None until folders.json is read *)
  messages : dict pykey json;          (* folder_id -> page of messages *)
  full_messages : dict pykey json;     (* message_id -> full message *)
  localstorage : json
}.

(** The module-level initial value of [data_store]. *)
Definition data_store0 : store :=
  mkStore JNull [] [] JNull.

Definition set_folders (st : store) (v : json) : store :=
  mkStore v (messages st) (full_messages st) (localstorage st).
Definition set_messages (st : store) (d : dict pykey json) : store :=
  mkStore (folders st) d (full_messages st) (localstorage st).
Definition set_full_messages (st : store) (d : dict pykey json) : store :=
  mkStore (folders st) (messages st) d (localstorage st).
Definition set_localstorage (st : store) (v : json) : store :=
  mkStore (folders st) (messages st) (full_messages st) v.

(** ** Code that mutates the store

    [load_data] updates the global store in place, so what it has
    written stays written when a later statement raises: a computation
    returns its outcome together with the store it leaves behind. *)

Definition M (A : Type) : Type := store -> res A * store.

Definition ret {A} (a : A) : M A := fun st => (Ok a, st).
Definition raise {A} (e : exn) : M A := fun st => (Raise e, st).
Definition bind {A B} (c : M A) (k : A -> M B) : M B :=
  fun st =>
    match c st with
    | (Ok a, st') => k a st'
    | (Raise e, st') => (Raise e, st')
    end.
Definition lift {A} (r : res A) : M A := fun st => (r, st).
(** Read something off the store, and update it in place. *)
Definition gets {A} (f : store -> A) : M A := fun st => (Ok (f st), st).
Definition modify (f : store -> store) : M unit := fun st => (Ok tt, f st).

Declare Scope m_scope.
Delimit Scope m_scope with M.
Notation "x <- c ;; k" := (bind c (fun x => k))
  (at level 61, c at next level, right associativity) : m_scope.
Notation "c ;; k" := (bind c (fun _ => k))
  (at level 61, right associativity) : m_scope.

Fixpoint for_each {A} (l : list A) (body : A -> M unit) : M unit :=
  match l with
  | [] => ret tt
  | x :: l' => (body x ;; for_each l' body)%M
  end.

(** ** The data directory *)

(** One source file: missing, present as text that [json.load] rejects
    (it raises JSONDecodeError), or present with the value [json.load]
    returns.  A file whose bytes are not UTF-8, a document nested too
    deep for the parser, and the non-standard numbers NaN and Infinity
    are outside the model, as every number with a fraction is. *)
Inductive source : Type :=
| Absent
| Malformed
| Parsed (j : json).

Record files : Type := mkFiles {
  folders_json : source;
  messages_json : source;
  all_messages_json : source;
  full_message_json : source;
  localstorage_data_json : source
}.

Definition no_files : files :=
  mkFiles Absent Absent Absent Absent Absent.

(** ** [load_data] *)

Section Load.
Local Open Scope m_scope.

(** [data_store['messages'][folder_id] = page] *)
Definition file_page (folder_id : pykey) (page : json) (st : store) : store :=
  set_messages st (dict_set pykey_eqb (messages st) folder_id page).

(** [data_store['full_messages'][msg_id] = full_msg] *)
Definition file_full_message (msg_id : pykey) (full_msg : json) (st : store) : store :=
  set_full_messages st (dict_set pykey_eqb (full_messages st) msg_id full_msg).

(** folders.json *)
Definition load_folders (src : source) : M unit :=
  match src with
  | Absent => ret tt
  | Malformed => raise JSONDecodeError
  | Parsed j => modify (fun st => set_folders st j)
  end.

(** messages.json: the page is filed under the folder of its first
    message. *)
Definition load_messages (src : source) : M unit :=
  match src with
  | Absent => ret tt
  | Malformed => raise JSONDecodeError
  | Parsed messages_data =>
      data <- lift (Py.get messages_data "data") ;;
      if Py.truthy data then
        msg0 <- lift (Py.first data) ;;
        folder <- lift (Py.get msg0 "folder") ;;
        folder_id <- lift (Py.key folder) ;;
        modify (file_page folder_id messages_data)
      else ret tt
  end.

(** The page created on the first message of a folder. *)
Definition empty_page : json :=
  JObj [("data", JArr []); ("metadata", JObj [])].

(** [entry['data'].append(msg)]: the list under ["data"] grows by one,
    in place. *)
Definition append_to_page (entry msg : json) : res json :=
  match entry with
  | JObj kvs =>
      match dict_get String.eqb kvs "data" with
      | None => Raise KeyError
      | Some (JArr l) =>
          Ok (JObj (dict_set String.eqb kvs "data" (JArr (l ++ [msg]))))
      | Some _ => Raise AttributeError
      end
  | _ => Raise TypeError
  end.

(** The body of the loop over all_messages.json. *)
Definition group_message (msg : json) : M unit :=
  folder <- lift (Py.get msg "folder") ;;
  folder_id <- lift (Py.key folder) ;;
  known <- gets (fun st => dict_mem pykey_eqb (messages st) folder_id) ;;
  (if negb known then modify (file_page folder_id empty_page) else ret tt) ;;
  entry <- gets (fun st => dict_get pykey_eqb (messages st) folder_id) ;;
  match entry with
  | None => raise KeyError
  | Some entry =>
      if Py.is_dict entry then
        entry' <- lift (append_to_page entry msg) ;;
        modify (file_page folder_id entry')
      else ret tt
  end.

(** all_messages.json *)
Definition load_all_messages (src : source) : M unit :=
  match src with
  | Absent => ret tt
  | Malformed => raise JSONDecodeError
  | Parsed all_messages =>
      if Py.truthy all_messages then
        msgs <- lift (Py.iter all_messages) ;;
        for_each msgs group_message
      else ret tt
  end.

(** full_message.json *)
Definition load_full_message (src : source) : M unit :=
  match src with
  | Absent => ret tt
  | Malformed => raise JSONDecodeError
  | Parsed full_msg =>
      msg_id <- lift (Py.get full_msg "id") ;;
      if Py.truthy msg_id then
        k <- lift (Py.key msg_id) ;;
        modify (file_full_message k full_msg)
      else ret tt
  end.

(** localstorage_data.json *)
Definition load_localstorage (src : source) : M unit :=
  match src with
  | Absent => ret tt
  | Malformed => raise JSONDecodeError
  | Parsed j => modify (fun st => set_localstorage st j)
  end.

(** The five steps in the order of the source; the progress lines it
    prints are left out. *)
Definition load_data (fs : files) : M unit :=
  load_folders (folders_json fs) ;;
  load_messages (messages_json fs) ;;
  load_all_messages (all_messages_json fs) ;;
  load_full_message (full_message_json fs) ;;
  load_localstorage (localstorage_data_json fs).

End Load.

(** The store [load_data] leaves behind, and whether it returned. *)
Definition store_after (fs : files) (st : store) : store :=
  snd (load_data fs st).
Definition returns (fs : files) (st : store) : Prop :=
  fst (load_data fs st) = Ok tt.

(** ** Responses *)

(** What a view function hands to Flask: the body given to [jsonify] and
    the status code. *)
Definition response : Type := json * Z.

Record config : Type := mkConfig {
  AUTH_TOKEN : string;
  OFW_STRICT_AUTH : option string      (* os.environ.get('OFW_STRICT_AUTH') *)
}.

Definition error_body (msg : string) : json :=
  JObj [("error", JStr msg)].

(** [reload_data], the view of POST /reload. *)
Definition reload_data (fs : files) : M response :=
  bind (load_data fs)
    (fun _ => ret (JObj [("status", JStr "ok");
                         ("message", JStr "Data reloaded")], 200)).

(** ** [require_auth] *)

Definition strict (cfg : config) : bool :=
  match OFW_STRICT_AUTH cfg with
  | Some v => String.eqb v "true"
  | None => false
  end.

(** The decorated function: [auth_header] is
    [request.headers.get('Authorization')], [f] the wrapped view. *)
Definition require_auth (cfg : config) (auth_header : option string)
    (f : res response) : res response :=
  match auth_header with
  | None => Ok (error_body "No Authorization header", 401)
  | Some h =>
      if String.eqb h "" then
        Ok (error_body "No Authorization header", 401)
      else if negb (String.prefix "Bearer " h) then
        Ok (error_body "Invalid Authorization header format", 401)
      else
        let token := String.substring 7 (String.length h - 7) h in
        if negb (String.eqb token (AUTH_TOKEN cfg)) && strict cfg then
          Ok (error_body "Invalid token", 401)
        else f
  end.

(** [require_ofw_headers] only logs the two headers. *)
Definition require_ofw_headers (ofw_client ofw_version : option string)
    (f : res response) : res response :=
  f.

(** ** The view functions *)

Section Views.
Local Open Scope res_scope.

Variable st : store.                 (* data_store when the request arrives *)

Definition lower_ascii (c : ascii) : ascii :=
  let n := nat_of_ascii c in
  if (Nat.leb 65 n && Nat.leb n 90)%bool then ascii_of_nat (n + 32) else c.

Definition lower (s : string) : string :=
  string_of_list_ascii (map lower_ascii (list_ascii_of_string s)).

Definition default_folders : json :=
  JObj [("systemFolders",
         JArr [JObj [("id", JNum 1);
                     ("name", JStr "Inbox");
                     ("folderOrder", JNum 1);
                     ("totalMessageCount", JNum 0);
                     ("unreadMessageCount", JNum 0);
                     ("folderType", JStr "INBOX")];
               JObj [("id", JNum 2);
                     ("name", JStr "Action Items");
                     ("folderOrder", JNum 2);
                     ("totalMessageCount", JNum 0);
                     ("unreadMessageCount", JNum 0);
                     ("folderType", JStr "ACTION_ITEMS")];
               JObj [("id", JNum 3);
                     ("name", JStr "Notifications");
                     ("folderOrder", JNum 3);
                     ("totalMessageCount", JNum 0);
                     ("unreadMessageCount", JNum 0);
                     ("folderType", JStr "SYSTEM_MESSAGES")]]);
        ("userFolders", JArr [])].

(** [includeFolderCounts] is the raw query parameter, when given. *)
Definition get_folders (includeFolderCounts : option string) : res response :=
  let include_counts :=
    String.eqb
      (lower (match includeFolderCounts with Some v => v | None => "true" end))
      "true" in
  if Py.truthy (folders st) then Ok (folders st, 200)
  else Ok (default_folders, 200).

Definition page_body (page count : Z) (first last : bool) (data : json) : json :=
  JObj [("metadata",
         JObj [("page", JNum page);
               ("count", JNum count);
               ("first", JBool first);
               ("last", JBool last)]);
        ("data", data)].

(** [folder_id and folder_id in data_store['messages']] *)
Definition folder_known (folder_id : option Z) : bool :=
  match folder_id with
  | None => false
  | Some n => negb (n =? 0) && dict_mem pykey_eqb (messages st) (KInt n)
  end.

Definition get_messages (folder_id : option Z) (page size : Z)
    (sort sort_direction : string) : res response :=
  if folder_known folder_id then
    messages_data <-
      match folder_id with
      | Some n =>
          match dict_get pykey_eqb (messages st) (KInt n) with
          | Some v => Ok v
          | None => Raise KeyError
          end
      | None => Raise TypeError
      end ;;
    if Py.is_dict messages_data && Py.has_key messages_data "data" then
      all_msgs <- Py.item messages_data "data" ;;
      let start_idx := (page - 1) * size in
      let end_idx := start_idx + size in
      page_msgs <- Py.slice all_msgs start_idx end_idx ;;
      count <- Py.len page_msgs ;;
      total <- Py.len all_msgs ;;
      Ok (page_body page count (page =? 1) (end_idx >=? total) page_msgs, 200)
    else
      Ok (messages_data, 200)
  else
    Ok (page_body page 0 true true (JArr []), 200).

Definition mock_body (message_id : Z) : string :=
  "This is a mock message body for message " ++ Py.str_of_int message_id ++ ".".

(** [result = msg.copy()], with the mock body when it has none. *)
Definition with_body (msg : json) (message_id : Z) : json :=
  match msg with
  | JObj kvs =>
      if dict_mem String.eqb kvs "body" then JObj kvs
      else JObj (dict_set String.eqb kvs "body" (JStr (mock_body message_id)))
  | other => other
  end.

(** The inner loop of [get_message]: [Some] is the early return. *)
Fixpoint scan_data (msgs : list json) (message_id : Z) : res (option response) :=
  match msgs with
  | [] => Ok None
  | msg :: rest =>
      id <- Py.get msg "id" ;;
      if Py.eq_int id message_id then Ok (Some (with_body msg message_id, 200))
      else scan_data rest message_id
  end.

(** The outer loop over [data_store['messages'].values()]. *)
Fixpoint scan_folders (pages : list json) (message_id : Z) : res response :=
  match pages with
  | [] => Ok (error_body "Message not found", 404)
  | folder_msgs :: rest =>
      if Py.is_dict folder_msgs && Py.has_key folder_msgs "data" then
        data <- Py.item folder_msgs "data" ;;
        msgs <- Py.iter data ;;
        found <- scan_data msgs message_id ;;
        match found with
        | Some r => Ok r
        | None => scan_folders rest message_id
        end
      else scan_folders rest message_id
  end.

Definition get_message (message_id : Z) : res response :=
  match dict_get pykey_eqb (full_messages st) (KInt message_id) with
  | Some full => Ok (full, 200)
  | None => scan_folders (dict_values (messages st)) message_id
  end.

End Views.

(** ** The gated routes *)

Record headers : Type := mkHeaders {
  Authorization : option string;
  ofw_client : option string;
  ofw_version : option string
}.

(** A view under its two decorators. *)
Definition gated (cfg : config) (hd : headers) (view : res response) : res response :=
  require_auth cfg (Authorization hd)
    (require_ofw_headers (ofw_client hd) (ofw_version hd) view).

(** GET /pub/v1/messageFolders *)
Definition route_get_folders (cfg : config) (st : store) (hd : headers)
    (includeFolderCounts : option string) : res response :=
  gated cfg hd (get_folders st includeFolderCounts).

(** GET /pub/v3/messages *)
Definition route_get_messages (cfg : config) (st : store) (hd : headers)
    (folder_id : option Z) (page size : Z) (sort sort_direction : string) :
    res response :=
  gated cfg hd (get_messages st folder_id page size sort sort_direction).

(** GET /pub/v3/messages/<int:message_id>.  The converter of the route
    only lets ids from 0 upwards through. *)
Definition route_get_message (cfg : config) (st : store) (hd : headers)
    (message_id : Z) : res response :=
  gated cfg hd (get_message st message_id).

(** ** The routes without a gate *)

(** GET /health *)
Definition health_check (st : store) : res response :=
  Ok (JObj [("status", JStr "ok");
            ("service", JStr "ofw-mock-server");
            ("data_loaded",
             JObj [("folders",
                    JBool (match folders st with JNull => false | _ => true end));
                   ("messages",
                    JBool (Z.of_nat (List.length (messages st)) >? 0));
                   ("full_messages",
                    JBool (Z.of_nat (List.length (full_messages st)) >? 0))])],
      200).

(** ['auth' in response_data] when the snapshot is a list. *)
Definition list_has_str (l : list json) (s : string) : bool :=
  existsb (fun x => match x with JStr t => String.eqb t s | _ => false end) l.

(** GET /ofw/appv2/localstorage.json.  A snapshot that is a list can be
    copied but not indexed by ['auth']; a string or a number has no
    [copy]. *)
Definition get_localstorage (cfg : config) (st : store) : res response :=
  if Py.truthy (localstorage st) then
    match localstorage st with
    | JObj kvs =>
        if negb (dict_mem String.eqb kvs "auth") then
          Ok (JObj (dict_set String.eqb kvs "auth" (JStr (AUTH_TOKEN cfg))), 200)
        else Ok (JObj kvs, 200)
    | JArr l =>
        if negb (list_has_str l "auth") then Raise TypeError
        else Ok (JArr l, 200)
    | _ => Raise AttributeError
    end
  else
    Ok (JObj [("auth", JStr (AUTH_TOKEN cfg));
              ("userId", JNum 123456);
              ("firstName", JStr "Mock");
              ("lastName", JStr "User")], 200).

(** ** Vocabulary of the properties *)

Definition page_container (v : json) : bool :=
  Py.is_dict v && Py.has_key v "data".

(** A FolderSet of the data model: an object with both folder sequences. *)
Definition folder_set (v : json) : bool :=
  Py.has_key v "systemFolders" && Py.has_key v "userFolders".

(** [msg.get('id') == message_id] for a message that is a JSON object. *)
Definition has_id (message_id : Z) (m : json) : bool :=
  match Py.get m "id" with
  | Ok v => Py.eq_int v message_id
  | Raise _ => false
  end.

(** The message list of a folder entry: the sequence under ["data"] of a
    page container, nothing for a legacy-shaped entry. *)
Definition page_messages (v : json) : list json :=
  if page_container v then
    match Py.item v "data" with
    | Ok (JArr l) => l
    | _ => []
    end
  else [].

(** Every per-folder message list, in the order the folders were filed. *)
Definition folder_lists (st : store) : list json :=
  flat_map page_messages (dict_values (messages st)).

(** The data model of the store: the ["data"] of a page container is a
    sequence of messages, and a message is a JSON object. *)
Definition well_formed_page (v : json) : bool :=
  if page_container v then
    match Py.item v "data" with
    | Ok (JArr l) => forallb Py.is_dict l
    | _ => false
    end
  else true.

Definition well_formed (st : store) : bool :=
  forallb well_formed_page (dict_values (messages st)).

(** [c] ends, normally or not, with the field as it found it. *)
Definition keeps {X A} (field : store -> X) (c : M A) : Prop :=
  forall st, field (snd (c st)) = field st.

(** Apart from the bulk export, a step either stops the load and leaves
    the store alone, or returns after one assignment that does not
    depend on the store. *)
Definition assigns (c : M unit) (f : store -> store) : Prop :=
  (exists e, forall st, c st = (Raise e, st))
  \/ (forall st, c st = (Ok tt, f st)).

(** The key a message is grouped under: [msg.get('folder')], when the
    message is a JSON object and the value can be hashed. *)
Definition folder_key (m : json) : option pykey :=
  match Py.get m "folder" with
  | Ok f => match Py.key f with Ok k => Some k | Raise _ => None end
  | Raise _ => None
  end.

Definition in_folder (k : pykey) (m : json) : bool :=
  match folder_key m with
  | Some k' => pykey_eqb k' k
  | None => false
  end.

(** An entry that is a page: an object whose ["data"] is a list. *)
Definition is_page (v : json) : bool :=
  match v with
  | JObj kvs =>
      match dict_get String.eqb kvs "data" with
      | Some (JArr _) => true
      | _ => false
      end
  | _ => false
  end.

(** Every folder entry of the store is a page. *)
Definition paged (st : store) : bool :=
  forallb is_page (dict_values (messages st)).

(** The messages listed under a folder key, none when it has no entry. *)
Definition page_data (st : store) (k : pykey) : list json :=
  match dict_get pykey_eqb (messages st) k with
  | Some v => page_messages v
  | None => []
  end.

(** [c] takes every store to one related to it by [R], whether it
    returns or raises. *)
Definition steps {A} (R : store -> store -> Prop) (c : M A) : Prop :=
  forall st, R st (snd (c st)).

(** No key of either dictionary is lost. *)
Definition extends (st st' : store) : Prop :=
  (forall k, dict_mem pykey_eqb (messages st) k = true ->
             dict_mem pykey_eqb (messages st') k = true)
  /\ (forall k, dict_mem pykey_eqb (full_messages st) k = true ->
                dict_mem pykey_eqb (full_messages st') k = true).

(** The data of a response that is a page. *)
Definition listed (r : res response) : list json :=
  match r with
  | Ok (body, _) =>
      match Py.item body "data" with
      | Ok (JArr l) => l
      | _ => []
      end
  | Raise _ => []
  end.

(** A field of the metadata of a response. *)
Definition metadata (r : res response) (field : string) : res json :=
  match r with
  | Ok (body, _) => res_bind (Py.item body "metadata") (fun m => Py.item m field)
  | Raise e => Raise e
  end.

(** The stores the server can be in: the initial one, and the one each
    call of [load_data] leaves, whatever the directory holds then. *)
Inductive reachable : store -> Prop :=
| reachable_start : reachable data_store0
| reachable_load (fs : files) (st : store) :
    reachable st -> reachable (store_after fs st).

(** The keys a falsy id would give: [None], [0] (also [False]) and [""]. *)
Definition falsy_key (k : pykey) : bool :=
  match k with
  | KNone => true
  | KInt n => n =? 0
  | KStr s => String.eqb s ""
  end.

(** ** Example fixtures *)

Definition msg (id fld : Z) : json :=
  JObj [("id", JNum id); ("folder", JNum fld)].

Definition msg_with_body (id fld : Z) (body : string) : json :=
  JObj [("id", JNum id); ("folder", JNum fld); ("body", JStr body)].

(** A directory that holds a bulk export and nothing else. *)
Definition bulk_folder0 (msgs : list json) : files :=
  mkFiles Absent Absent (Parsed (JArr msgs)) Absent Absent.

Definition captured_folders : json :=
  JObj [("systemFolders",
         JArr [JObj [("id", JNum 11); ("name", JStr "Inbox"); ("folderOrder", JNum 1);
                     ("totalMessageCount", JNum 4); ("unreadMessageCount", JNum 2);
                     ("folderType", JStr "INBOX")]]);
        ("userFolders", JArr [])].

Definition mock_config (strict_auth : option string) : config :=
  mkConfig "mock_auth_token_12345" strict_auth.

Definition client_headers (auth : string) : headers :=
  mkHeaders (Some auth) (Some "WebApplication") (Some "1.0.0").

(** A store with one full message, one folder of three listed messages
    (the second already has a body) and one legacy-shaped entry. *)
Definition sample_store : store :=
  mkStore JNull
    [(KInt 7, JObj [("data", JArr [msg 1 7; msg_with_body 2 7 "hello"; msg 3 7]);
                    ("metadata", JObj [])]);
     (KInt 8, JObj [("messages", JArr [msg 5 8])])]
    [(KInt 9, msg_with_body 9 7 "the full text")]
    JNull.

Definition only_full_message : files :=
  mkFiles Absent Absent Absent (Parsed (msg_with_body 4 7 "a fourth message")) Absent.

Definition only_folders : files :=
  mkFiles (Parsed captured_folders) Absent Absent Absent Absent.

Definition export_folder7 : list (string * json) :=
  [("metadata", JObj [("page", JNum 1); ("folder", JNum 99)]);
   ("data", JArr [msg 1 7; msg 2 7])].

Definition export_empty : list (string * json) :=
  [("metadata", JObj [("page", JNum 1)]); ("data", JArr [])].

(** A directory with a bulk export of one message in folder 1. *)
Definition bulk_one_message : files :=
  mkFiles Absent Absent (Parsed (JArr [msg 1 1])) Absent Absent.

(** * Properties *)

Unset Implicit Arguments.

Example get_messages_page2 :
  get_messages
    (mkStore JNull [(KInt 7, JObj [("data", JArr [msg 1 7; msg 2 7; msg 3 7])])] [] JNull)
    (Some 7) 2 2 "date" "desc"
  = Ok (page_body 2 1 false true (JArr [msg 3 7]), 200).
Proof. reflexivity. Qed.

Example get_message_mock_body :
  get_message
    (mkStore JNull [(KInt 7, JObj [("data", JArr [msg 1 7; msg 2 7])])] [] JNull) 2
  = Ok (JObj [("id", JNum 2); ("folder", JNum 7);
              ("body", JStr "This is a mock message body for message 2.")], 200).
Proof. reflexivity. Qed.

Example str_of_int_values :
  Py.str_of_int 0 = "0" /\ Py.str_of_int 1207 = "1207" /\ Py.str_of_int (-5) = "-5".
Proof. repeat split. Qed.

Example slice_list_values :
  Py.slice_list [1; 2; 3; 4; 5] 1 3 = [2; 3]
  /\ Py.slice_list [1; 2; 3; 4; 5] 4 10 = [5]
  /\ Py.slice_list [1; 2; 3; 4; 5] (-2) 5 = [4; 5]
  /\ Py.slice_list [1; 2; 3; 4; 5] 7 9 = [].
Proof. repeat split. Qed.

(** Load an export of folder 7, then list the folder. *)
Example export_then_first_page :
  get_messages
    (store_after
       (mkFiles Absent (Parsed (JObj [("data", JArr [msg 1 7; msg 2 7])]))
          Absent Absent Absent)
       data_store0)
    (Some 7) 1 50 "date" "desc"
  = Ok (page_body 1 2 true true (JArr [msg 1 7; msg 2 7]), 200).
Proof. reflexivity. Qed.

Example load_single_folder_export :
  store_after
    (mkFiles Absent (Parsed (JObj [("data", JArr [msg 1 7; msg 2 7])])) Absent Absent Absent)
    data_store0
  = mkStore JNull [(KInt 7, JObj [("data", JArr [msg 1 7; msg 2 7])])] [] JNull.
Proof. reflexivity. Qed.

(** ** Dictionaries *)

Section DictFacts.
Variables K V : Type.
Variable eqb : K -> K -> bool.
Hypothesis eqb_eq : forall a b, eqb a b = true <-> a = b.

Lemma eqb_refl (a : K) : eqb a a = true.
Proof. now apply eqb_eq. Qed.

Lemma eqb_neq (a b : K) : a <> b -> eqb a b = false.
Proof.
  intros Hab. destruct (eqb a b) eqn:E; [|reflexivity].
  apply eqb_eq in E. contradiction.
Qed.

Lemma dict_get_set_same (d : dict K V) k v :
  dict_get eqb (dict_set eqb d k v) k = Some v.
Proof.
  induction d as [|[k' v'] d IH]; simpl.
  - now rewrite eqb_refl.
  - destruct (eqb k k') eqn:E; simpl; rewrite E; [reflexivity | exact IH].
Qed.

Lemma dict_get_set_other (d : dict K V) k k' v :
  k' <> k -> dict_get eqb (dict_set eqb d k v) k' = dict_get eqb d k'.
Proof.
  intros Hne. induction d as [|[k0 v0] d IH]; simpl.
  - now rewrite (eqb_neq _ _ Hne).
  - destruct (eqb k k0) eqn:E; simpl.
    + apply eqb_eq in E. subst k0. now rewrite (eqb_neq _ _ Hne).
    + now rewrite IH.
Qed.

Lemma dict_set_fresh (d : dict K V) k v :
  dict_mem eqb d k = false -> dict_set eqb d k v = (d ++ [(k, v)])%list.
Proof.
  unfold dict_mem. induction d as [|[k' v'] d IH]; simpl; [reflexivity|].
  destruct (eqb k k'); [discriminate|]. intros H. now rewrite IH.
Qed.

Lemma dict_set_twice (d : dict K V) k v w :
  dict_set eqb (dict_set eqb d k v) k w = dict_set eqb d k w.
Proof.
  induction d as [|[k' v'] d IH]; simpl.
  - now rewrite eqb_refl.
  - destruct (eqb k k') eqn:E; simpl; rewrite E; [reflexivity | now rewrite IH].
Qed.

End DictFacts.

Lemma pykey_eqb_eq (a b : pykey) : pykey_eqb a b = true <-> a = b.
Proof.
  destruct a, b; simpl; split; intros H;
    try reflexivity; try discriminate; try congruence.
  - apply Z.eqb_eq in H. now subst.
  - injection H as ->. apply Z.eqb_refl.
  - apply String.eqb_eq in H. now subst.
  - injection H as ->. apply String.eqb_refl.
Qed.

(** ** Slices *)

(** With both bounds inside [0 .. stop], a Python slice is the plain
    zero-based one: drop [start] items, keep the next [stop - start]. *)
Lemma slice_list_zero_based {A} (l : list A) (start stop : Z) :
  0 <= start <= stop ->
  Py.slice_list l start stop
  = firstn (Z.to_nat (stop - start)) (skipn (Z.to_nat start) l).
Proof.
  intros [H0 Hle]. unfold Py.slice_list, Py.clamp.
  destruct (Z.ltb_spec start 0) as [?|_]; [lia|].
  destruct (Z.ltb_spec stop 0) as [?|_]; [lia|].
  set (n := Z.of_nat (List.length l)).
  destruct (Z.le_gt_cases n start) as [Hout|Hin].
  - rewrite (Z.min_r start n), (Z.min_r stop n) by lia.
    rewrite !skipn_all2 by lia. now rewrite !firstn_nil.
  - rewrite (Z.min_l start n) by lia.
    destruct (Z.le_gt_cases stop n) as [Hs|Hs].
    + now rewrite (Z.min_l stop n) by lia.
    + rewrite (Z.min_r stop n) by lia.
      rewrite !firstn_all2; [reflexivity| |]; rewrite length_skipn; lia.
Qed.

(** ** Listing the messages of a folder *)

Lemma folder_known_lookup (st : store) (n : Z) (v : json) :
  n <> 0 ->
  dict_get pykey_eqb (messages st) (KInt n) = Some v ->
  folder_known st (Some n) = true.
Proof.
  intros Hn Hv. unfold folder_known, dict_mem. rewrite Hv.
  apply Z.eqb_neq in Hn. now rewrite Hn.
Qed.

(** For a folder id other than 0 that is filed as a page container, the
    response is the requested zero-based slice with its metadata. *)
Lemma get_messages_paginates (st : store) (n page size : Z)
    (sort sort_direction : string) (kvs : list (string * json)) (l : list json) :
  n <> 0 ->
  dict_get pykey_eqb (messages st) (KInt n) = Some (JObj kvs) ->
  dict_get String.eqb kvs "data" = Some (JArr l) ->
  1 <= page -> 0 < size ->
  let start_idx := (page - 1) * size in
  let end_idx := start_idx + size in
  let page_msgs := firstn (Z.to_nat size) (skipn (Z.to_nat start_idx) l) in
  get_messages st (Some n) page size sort sort_direction
  = Ok (page_body page (Z.of_nat (List.length page_msgs))
          (page =? 1) (Z.of_nat (List.length l) <=? end_idx)
          (JArr page_msgs), 200).
Proof.
  intros Hn Hv Hdata Hpage Hsize start_idx end_idx page_msgs.
  unfold get_messages. rewrite (folder_known_lookup st n _ Hn Hv), Hv. simpl.
  unfold dict_mem. rewrite Hdata. simpl.
  rewrite slice_list_zero_based by (fold start_idx; nia).
  replace ((page - 1) * size + size - (page - 1) * size) with size by lia.
  fold start_idx end_idx page_msgs.
  now rewrite Z.geb_leb.
Qed.

(** A page past the end of the list is empty, is the last one, and
    still echoes the page asked for. *)
Lemma get_messages_beyond_range (st : store) (n page size : Z)
    (sort sort_direction : string) (kvs : list (string * json)) (l : list json) :
  n <> 0 ->
  dict_get pykey_eqb (messages st) (KInt n) = Some (JObj kvs) ->
  dict_get String.eqb kvs "data" = Some (JArr l) ->
  1 <= page -> 0 < size ->
  Z.of_nat (List.length l) <= (page - 1) * size ->
  get_messages st (Some n) page size sort sort_direction
  = Ok (page_body page 0 (page =? 1) true (JArr []), 200).
Proof.
  intros Hn Hv Hdata Hpage Hsize Hpast.
  rewrite (get_messages_paginates st n page size sort sort_direction kvs l)
    by assumption.
  rewrite skipn_all2 by lia. rewrite firstn_nil. simpl.
  replace (Z.of_nat (List.length l) <=? (page - 1) * size + size) with true;
    [reflexivity|].
  symmetry. apply Z.leb_le. lia.
Qed.

(** A legacy-shaped entry of a folder other than 0 is returned as it is. *)
Lemma get_messages_legacy (st : store) (n page size : Z)
    (sort sort_direction : string) (v : json) :
  n <> 0 ->
  dict_get pykey_eqb (messages st) (KInt n) = Some v ->
  page_container v = false ->
  get_messages st (Some n) page size sort sort_direction = Ok (v, 200).
Proof.
  intros Hn Hv Hleg. unfold get_messages.
  rewrite (folder_known_lookup st n _ Hn Hv), Hv. simpl.
  unfold page_container in Hleg. now rewrite Hleg.
Qed.

(** Without a folder id, or for one that has no entry, the page is empty. *)
Lemma get_messages_unknown (st : store) (folder_id : option Z) (page size : Z)
    (sort sort_direction : string) :
  match folder_id with
  | None => True
  | Some n => dict_mem pykey_eqb (messages st) (KInt n) = false
  end ->
  get_messages st folder_id page size sort sort_direction
  = Ok (page_body page 0 true true (JArr []), 200).
Proof.
  intros H. unfold get_messages, folder_known.
  destruct folder_id as [n|]; [|reflexivity].
  rewrite H. now rewrite andb_false_r.
Qed.

(** C1: for a folder filed as a page container, page >= 1 and size > 0,
    the listing is the zero-based slice with count, first, last and the
    echoed page.  The code does so for every folder id but 0: folder 0 of
    a bulk export holds three messages, and a request for its first two
    gets the empty page, not the slice [m1; m2]. *)
Theorem get_messages_folder_zero_not_sliced :
  let st := store_after (bulk_folder0 [msg 1 0; msg 2 0; msg 3 0]) data_store0 in
  dict_get pykey_eqb (messages st) (KInt 0)
  = Some (JObj [("data", JArr [msg 1 0; msg 2 0; msg 3 0]); ("metadata", JObj [])])
  /\ get_messages st (Some 0) 1 2 "date" "desc"
     = Ok (page_body 1 0 true true (JArr []), 200)
  /\ get_messages st (Some 0) 1 2 "date" "desc"
     <> Ok (page_body 1 2 true false (JArr [msg 1 0; msg 2 0]), 200).
Proof.
  repeat split; try reflexivity.
  vm_compute. discriminate.
Qed.

(** C4: the empty page is for a missing folder id or one without an
    entry, and an entry is otherwise consulted.  Folder 0 has an entry
    after the load, yet the request for it is answered with the empty
    page instead of the one message stored there. *)
Theorem get_messages_folder_zero_entry_ignored :
  let st := store_after (bulk_folder0 [msg 1 0]) data_store0 in
  dict_mem pykey_eqb (messages st) (KInt 0) = true
  /\ get_messages st (Some 0) 1 50 "date" "desc"
     = Ok (page_body 1 0 true true (JArr []), 200)
  /\ get_messages st (Some 0) 1 50 "date" "desc"
     <> Ok (page_body 1 1 true true (JArr [msg 1 0]), 200).
Proof.
  repeat split; try reflexivity.
  vm_compute. discriminate.
Qed.

(** C9: two listings that agree on folder id, page and size give the
    same response whatever their sort and sortDirection are. *)
Theorem get_messages_ignores_sort (st : store) (folder_id : option Z)
    (page size : Z) (sort1 dir1 sort2 dir2 : string) :
  get_messages st folder_id page size sort1 dir1
  = get_messages st folder_id page size sort2 dir2.
Proof.
  unfold get_messages.
  destruct (folder_known st folder_id); reflexivity.
Qed.

(** ** The folder listing *)

Lemma folder_set_truthy (v : json) :
  folder_set v = true -> Py.truthy v = true.
Proof.
  destruct v as [| | | | |kvs]; try discriminate.
  destruct kvs; [discriminate | reflexivity].
Qed.

(** C6: a loaded FolderSet is returned verbatim whatever
    includeFolderCounts says; with none loaded the answer is the three
    system folders 1, 2, 3 (Inbox, Action Items, Notifications), each
    ordered by its id with zero counts, and no user folders. *)
Theorem get_folders_resolution (st : store) (includeFolderCounts : option string) :
  (folder_set (folders st) = true ->
   get_folders st includeFolderCounts = Ok (folders st, 200))
  /\ (folders st = JNull ->
      exists body sys,
        get_folders st includeFolderCounts = Ok (body, 200)
        /\ Py.item body "systemFolders" = Ok (JArr sys)
        /\ Py.item body "userFolders" = Ok (JArr [])
        /\ map (fun f => Py.get f "id") sys
           = [Ok (JNum 1); Ok (JNum 2); Ok (JNum 3)]
        /\ map (fun f => Py.get f "name") sys
           = [Ok (JStr "Inbox"); Ok (JStr "Action Items"); Ok (JStr "Notifications")]
        /\ Forall (fun f => Py.get f "folderOrder" = Py.get f "id"
                            /\ Py.get f "totalMessageCount" = Ok (JNum 0)
                            /\ Py.get f "unreadMessageCount" = Ok (JNum 0)) sys).
Proof.
  split.
  - intros H. unfold get_folders. now rewrite (folder_set_truthy _ H).
  - intros H. unfold get_folders. rewrite H. simpl.
    eexists. eexists. split; [reflexivity|].
    repeat split; try reflexivity.
    repeat constructor.
Qed.

Lemma get_folders_resolution_witness :
  get_folders (mkStore captured_folders [] [] JNull) (Some "false")
  = Ok (captured_folders, 200)
  /\ exists body sys,
       get_folders data_store0 None = Ok (body, 200)
       /\ Py.item body "systemFolders" = Ok (JArr sys)
       /\ Py.item body "userFolders" = Ok (JArr [])
       /\ map (fun f => Py.get f "id") sys
          = [Ok (JNum 1); Ok (JNum 2); Ok (JNum 3)]
       /\ map (fun f => Py.get f "name") sys
          = [Ok (JStr "Inbox"); Ok (JStr "Action Items"); Ok (JStr "Notifications")]
       /\ Forall (fun f => Py.get f "folderOrder" = Py.get f "id"
                           /\ Py.get f "totalMessageCount" = Ok (JNum 0)
                           /\ Py.get f "unreadMessageCount" = Ok (JNum 0)) sys.
Proof.
  split.
  - apply (proj1 (get_folders_resolution
                    (mkStore captured_folders [] [] JNull) (Some "false"))).
    reflexivity.
  - apply (proj2 (get_folders_resolution data_store0 None)).
    reflexivity.
Defined.

(** ** The access gate *)

Lemma substring_whole (s : string) : String.substring 0 (String.length s) s = s.
Proof. induction s as [|c s IH]; simpl; [reflexivity | now rewrite IH]. Qed.

(** A header with the Bearer scheme passes the two shape tests and
    yields the text after the scheme as its token. *)
Lemma require_auth_bearer (cfg : config) (tok : string) (f : res response) :
  require_auth cfg (Some ("Bearer " ++ tok)) f
  = if negb (String.eqb tok (AUTH_TOKEN cfg)) && strict cfg
    then Ok (error_body "Invalid token", 401)
    else f.
Proof.
  unfold require_auth. simpl.
  replace (String.prefix "" tok) with true by (now destruct tok).
  simpl. now rewrite Nat.sub_0_r, substring_whole.
Qed.

(** C5: on a gated route a missing Authorization header is answered
    with 401, and so is one that does not start with the Bearer scheme;
    a Bearer header reaches the view whatever its token when strict mode
    is off; with strict mode on it reaches the view when the token is
    the configured one and is answered with 401 when it is not. *)
Theorem require_auth_gate (cfg : config) (f : res response) :
  require_auth cfg None f = Ok (error_body "No Authorization header", 401)
  /\ (forall h, String.prefix "Bearer " h = false ->
        exists reason, require_auth cfg (Some h) f = Ok (error_body reason, 401))
  /\ (forall tok, OFW_STRICT_AUTH cfg <> Some "true" ->
        require_auth cfg (Some ("Bearer " ++ tok)) f = f)
  /\ (forall tok, OFW_STRICT_AUTH cfg = Some "true" ->
        (tok = AUTH_TOKEN cfg ->
         require_auth cfg (Some ("Bearer " ++ tok)) f = f)
        /\ (tok <> AUTH_TOKEN cfg ->
            require_auth cfg (Some ("Bearer " ++ tok)) f
            = Ok (error_body "Invalid token", 401))).
Proof.
  repeat split.
  - intros h Hh. unfold require_auth. rewrite Hh. simpl.
    destruct (String.eqb h ""); eauto.
  - intros tok Hoff. rewrite require_auth_bearer.
    assert (strict cfg = false) as ->; [|now rewrite andb_false_r].
    unfold strict. destruct (OFW_STRICT_AUTH cfg) as [v|]; [|reflexivity].
    destruct (String.eqb_spec v "true"); congruence.
  - intros ->. rewrite require_auth_bearer. now rewrite String.eqb_refl.
  - intros Hne. rewrite require_auth_bearer.
    apply String.eqb_neq in Hne. rewrite Hne.
    unfold strict. now rewrite H.
Qed.

Lemma require_auth_gate_witness :
  (exists reason,
     route_get_folders (mock_config None) data_store0
       (client_headers "Basic dXNlcjpwdw==") None
     = Ok (error_body reason, 401))
  /\ route_get_folders (mock_config (Some "false")) data_store0
       (client_headers ("Bearer " ++ "anything")) None
     = get_folders data_store0 None
  /\ route_get_message (mock_config (Some "true")) sample_store
       (client_headers ("Bearer " ++ "mock_auth_token_12345")) 9
     = get_message sample_store 9
  /\ route_get_messages (mock_config (Some "true")) sample_store
       (client_headers ("Bearer " ++ "anything")) (Some 7) 1 50 "date" "desc"
     = Ok (error_body "Invalid token", 401).
Proof.
  unfold route_get_folders, route_get_message, route_get_messages, gated,
         require_ofw_headers.
  split; [|split; [|split]].
  - apply (proj1 (proj2 (require_auth_gate (mock_config None)
                           (get_folders data_store0 None)))).
    reflexivity.
  - apply (proj1 (proj2 (proj2 (require_auth_gate (mock_config (Some "false"))
                                  (get_folders data_store0 None))))).
    discriminate.
  - apply (proj2 (proj2 (proj2 (require_auth_gate (mock_config (Some "true"))
                                  (get_message sample_store 9))))
             "mock_auth_token_12345");
      reflexivity.
  - apply (proj2 (proj2 (proj2 (require_auth_gate (mock_config (Some "true"))
                                  (get_messages sample_store (Some 7) 1 50 "date" "desc"))))
             "anything");
      [reflexivity | discriminate].
Defined.

(** ** Looking a message up by id *)

Lemma scan_data_find (l : list json) (message_id : Z) :
  forallb Py.is_dict l = true ->
  scan_data l message_id
  = Ok (match find (has_id message_id) l with
        | Some m => Some (with_body m message_id, 200)
        | None => None
        end).
Proof.
  induction l as [|m l IH]; simpl; [reflexivity|].
  intros H. apply andb_prop in H as [Hm Hl].
  destruct m; try discriminate. unfold has_id. simpl.
  destruct (Py.eq_int _ message_id); [reflexivity | now apply IH].
Qed.

Lemma find_app_l {A} (p : A -> bool) (l1 l2 : list A) :
  find p (l1 ++ l2)
  = match find p l1 with Some x => Some x | None => find p l2 end.
Proof.
  induction l1 as [|x l1 IH]; simpl; [reflexivity|].
  destruct (p x); [reflexivity | exact IH].
Qed.

(** The two nested loops return the first message with the id among
    the per-folder lists, and 404 when there is none. *)
Lemma scan_folders_find (pages : list json) (message_id : Z) :
  forallb well_formed_page pages = true ->
  scan_folders pages message_id
  = Ok (match find (has_id message_id) (flat_map page_messages pages) with
        | Some m => (with_body m message_id, 200)
        | None => (error_body "Message not found", 404)
        end).
Proof.
  induction pages as [|v pages IH]; simpl; [reflexivity|].
  intros H. apply andb_prop in H as [Hv Hrest].
  rewrite find_app_l. unfold well_formed_page, page_messages in *.
  fold (page_container v).
  destruct (page_container v) eqn:Hpc; [|now apply IH].
  destruct (Py.item v "data") as [data|]; [|discriminate].
  destruct data; try discriminate. simpl.
  rewrite (scan_data_find _ _ Hv). simpl.
  destruct (find (has_id message_id) l); [reflexivity | now apply IH].
Qed.

Lemma find_first {A} (p : A -> bool) (before after : list A) (x : A) :
  forallb (fun y => negb (p y)) before = true ->
  p x = true ->
  find p (before ++ x :: after) = Some x.
Proof.
  induction before as [|y before IH]; simpl; intros Hb Hx.
  - now rewrite Hx.
  - apply andb_prop in Hb as [Hy Hb].
    apply negb_true_iff in Hy. rewrite Hy. now apply IH.
Qed.

Lemma find_none {A} (p : A -> bool) (l : list A) :
  (forall x, In x l -> p x = false) -> find p l = None.
Proof.
  induction l as [|y l IH]; simpl; intros H; [reflexivity|].
  rewrite (H y (or_introl eq_refl)). apply IH. intros x Hx. apply H. now right.
Qed.

Lemma has_id_is_dict (message_id : Z) (m : json) :
  has_id message_id m = true -> exists kvs, m = JObj kvs.
Proof. destruct m; try discriminate. eauto. Qed.

(** The text [str] gives for an integer is its decimal numeral: the
    decimal reader of the standard library reads it back as the digits
    of that integer, sign included, without a leading zero. *)
Lemma str_of_int_reads_back (n : Z) :
  NilZero.int_of_string (Py.str_of_int n) = Some (Z.to_int n).
Proof.
  unfold Py.str_of_int.
  apply NilZero.isi; destruct n; simpl; try discriminate;
    intros H; injection H as H;
    exact (DecimalPos.Unsigned.to_uint_nonnil _ H).
Qed.

(** C2: a message id filed in full_messages gets that entry as it is;
    otherwise the answer is the first message with that id among the
    per-folder lists, copied, with a body added only when the message
    has none, whose text is "This is a mock message body for message ",
    the decimal numeral of the id and "."; and when no list has the id
    the answer is 404 with the body {"error": "Message not found"}. *)
Theorem get_message_resolution (st : store) (message_id : Z) :
  (forall full,
      dict_get pykey_eqb (full_messages st) (KInt message_id) = Some full ->
      get_message st message_id = Ok (full, 200))
  /\ (dict_get pykey_eqb (full_messages st) (KInt message_id) = None ->
      well_formed st = true ->
      (forall before m after,
          folder_lists st = (before ++ m :: after)%list ->
          forallb (fun x => negb (has_id message_id x)) before = true ->
          has_id message_id m = true ->
          exists kvs digits,
            m = JObj kvs
            /\ NilZero.int_of_string digits = Some (Z.to_int message_id)
            /\ get_message st message_id
               = Ok (JObj (if dict_mem String.eqb kvs "body" then kvs
                           else (kvs ++ [("body",
                                   JStr ("This is a mock message body for message "
                                         ++ digits ++ "."))])%list),
                     200))
      /\ ((forall x, In x (folder_lists st) -> has_id message_id x = false) ->
          get_message st message_id
          = Ok (JObj [("error", JStr "Message not found")], 404))).
Proof.
  split.
  - intros full Hfull. unfold get_message. now rewrite Hfull.
  - intros Hnone Hwf. unfold get_message. rewrite Hnone.
    rewrite (scan_folders_find _ _ Hwf). fold (folder_lists st).
    split.
    + intros before m after Hsplit Hbefore Hm.
      rewrite Hsplit, (find_first _ _ after _ Hbefore Hm).
      destruct (has_id_is_dict _ _ Hm) as [kvs ->].
      exists kvs, (Py.str_of_int message_id).
      split; [reflexivity|]. split; [apply str_of_int_reads_back|]. simpl.
      destruct (dict_mem String.eqb kvs "body") eqn:Hbody; [reflexivity|].
      now rewrite (dict_set_fresh _ _ _ _ _ _ Hbody).
    + intros Hno. now rewrite (find_none _ _ Hno).
Qed.

Lemma get_message_resolution_witness :
  get_message sample_store 9
  = Ok (JObj [("id", JNum 9); ("folder", JNum 7); ("body", JStr "the full text")], 200)
  /\ get_message sample_store 3
     = Ok (JObj [("id", JNum 3); ("folder", JNum 7);
                 ("body", JStr "This is a mock message body for message 3.")], 200)
  /\ get_message sample_store 2
     = Ok (JObj [("id", JNum 2); ("folder", JNum 7); ("body", JStr "hello")], 200)
  /\ get_message sample_store 4
     = Ok (JObj [("error", JStr "Message not found")], 404).
Proof.
  split; [|split; [|split]].
  - apply (proj1 (get_message_resolution sample_store 9)). reflexivity.
  - destruct (proj1 (proj2 (get_message_resolution sample_store 3) eq_refl eq_refl)
                [msg 1 7; msg_with_body 2 7 "hello"] (msg 3 7) []
                eq_refl eq_refl eq_refl)
      as (kvs & digits & Hm & Hdigits & Hget).
    injection Hm as <-.
    apply NilZero.sis in Hdigits. subst digits. exact Hget.
  - destruct (proj1 (proj2 (get_message_resolution sample_store 2) eq_refl eq_refl)
                [msg 1 7] (msg_with_body 2 7 "hello") [msg 3 7]
                eq_refl eq_refl eq_refl)
      as (kvs & digits & Hm & _ & Hget).
    injection Hm as <-. exact Hget.
  - apply (proj2 (proj2 (get_message_resolution sample_store 4) eq_refl eq_refl)).
    simpl. intros x [<-|[<-|[<-|[]]]]; reflexivity.
Defined.

Lemma scan_folders_skips_legacy (pages : list json) (message_id : Z) :
  scan_folders pages message_id
  = scan_folders (filter page_container pages) message_id.
Proof.
  induction pages as [|v pages IH]; simpl; [reflexivity|].
  fold (page_container v).
  destruct (page_container v) eqn:Hpc; simpl.
  - fold (page_container v). rewrite Hpc.
    destruct (Py.item v "data") as [data|]; [|reflexivity]. simpl.
    destruct (Py.iter data) as [msgs|]; [|reflexivity]. simpl.
    destruct (scan_data msgs message_id) as [[r|]|]; simpl; congruence.
  - exact IH.
Qed.

Lemma dict_values_filter {K V} (p : V -> bool) (d : dict K V) :
  dict_values (filter (fun kv => p (snd kv)) d) = filter p (dict_values d).
Proof.
  induction d as [|[k v] d IH]; simpl; [reflexivity|].
  destruct (p v); simpl; now rewrite IH.
Qed.

(** C10: the fallback scan only looks into page containers.  The
    legacy-shaped entries can be dropped from the store without changing
    the answer, so an id that is in no full message and in no page
    container gets 404, whatever the legacy-shaped entries hold. *)
Theorem legacy_entries_not_searched (st : store) (message_id : Z) :
  get_message st message_id
  = get_message
      (set_messages st (filter (fun kv => page_container (snd kv)) (messages st)))
      message_id
  /\ (dict_get pykey_eqb (full_messages st) (KInt message_id) = None ->
      (forall v, In v (dict_values (messages st)) ->
         page_container v = false
         \/ (well_formed_page v = true
             /\ forall x, In x (page_messages v) -> has_id message_id x = false)) ->
      get_message st message_id = Ok (error_body "Message not found", 404)).
Proof.
  split.
  - unfold get_message. simpl.
    destruct (dict_get pykey_eqb (full_messages st) (KInt message_id));
      [reflexivity|].
    now rewrite dict_values_filter, <- scan_folders_skips_legacy.
  - intros Hnone Hpages. unfold get_message. rewrite Hnone.
    rewrite scan_folders_skips_legacy.
    rewrite scan_folders_find.
    + rewrite find_none; [reflexivity|].
      intros x Hx. apply in_flat_map in Hx as (v & Hv & Hxv).
      apply filter_In in Hv as [Hv Hpc].
      destruct (Hpages v Hv) as [Hleg|[_ Hno]]; [congruence | now apply Hno].
    + apply forallb_forall. intros v Hv.
      apply filter_In in Hv as [Hv Hpc].
      destruct (Hpages v Hv) as [Hleg|[Hwf _]]; [congruence | exact Hwf].
Qed.

Lemma legacy_entries_not_searched_witness :
  In (msg 5 8) [msg 5 8]
  /\ dict_get pykey_eqb (messages sample_store) (KInt 8)
     = Some (JObj [("messages", JArr [msg 5 8])])
  /\ get_message sample_store 5 = Ok (error_body "Message not found", 404).
Proof.
  split; [now left | split; [reflexivity|]].
  apply (proj2 (legacy_entries_not_searched sample_store 5)); [reflexivity|].
  simpl. intros v [<-|[<-|[]]].
  - right. split; [reflexivity|].
    simpl. intros x [<-|[<-|[<-|[]]]]; reflexivity.
  - left. reflexivity.
Defined.

(** ** What a load leaves untouched *)

Section Frame.
Context {X : Type} (field : store -> X).

Lemma keeps_ret {A} (a : A) : keeps field (ret a).
Proof. intros st. reflexivity. Qed.

Lemma keeps_raise {A} (e : exn) : keeps field (@raise A e).
Proof. intros st. reflexivity. Qed.

Lemma keeps_lift {A} (r : res A) : keeps field (lift r).
Proof. intros st. reflexivity. Qed.

Lemma keeps_gets {A} (f : store -> A) : keeps field (gets f).
Proof. intros st. reflexivity. Qed.

Lemma keeps_modify (f : store -> store) :
  (forall st, field (f st) = field st) -> keeps field (modify f).
Proof. intros H st. apply H. Qed.

Lemma keeps_bind {A B} (c : M A) (k : A -> M B) :
  keeps field c -> (forall a, keeps field (k a)) -> keeps field (bind c k).
Proof.
  intros Hc Hk st. unfold bind.
  specialize (Hc st). destruct (c st) as [[a|e] st']; simpl in *.
  - now rewrite Hk.
  - exact Hc.
Qed.

Lemma keeps_for_each {A} (l : list A) (body : A -> M unit) :
  (forall x, keeps field (body x)) -> keeps field (for_each l body).
Proof.
  intros Hbody. induction l as [|x l IH]; simpl.
  - apply keeps_ret.
  - apply keeps_bind; [apply Hbody | intros _; exact IH].
Qed.
End Frame.

(** Break a loader step into its statements. *)
Ltac frame :=
  repeat first
    [ apply keeps_ret | apply keeps_raise | apply keeps_lift | apply keeps_gets
    | apply keeps_modify; intros []; reflexivity
    | apply keeps_for_each; intros ?
    | apply keeps_bind; [|intros ?]
    | match goal with
      | |- keeps _ (if ?b then _ else _) => destruct b
      | |- keeps _ (match ?x with _ => _ end) => destruct x
      end ].

Lemma load_folders_keeps {X} (field : store -> X) (src : source) :
  (forall st v, field (set_folders st v) = field st) ->
  keeps field (load_folders src).
Proof.
  intros H. destruct src; simpl; frame. apply keeps_modify. intros st. apply H.
Qed.

Lemma load_messages_keeps {X} (field : store -> X) (src : source) :
  (forall st d, field (set_messages st d) = field st) ->
  keeps field (load_messages src).
Proof.
  intros H. destruct src; simpl; frame. apply keeps_modify. intros st. apply H.
Qed.

Lemma load_all_messages_keeps {X} (field : store -> X) (src : source) :
  (forall st d, field (set_messages st d) = field st) ->
  keeps field (load_all_messages src).
Proof.
  intros H. destruct src; simpl; frame;
    apply keeps_modify; intros st; apply H.
Qed.

Lemma load_full_message_keeps {X} (field : store -> X) (src : source) :
  (forall st d, field (set_full_messages st d) = field st) ->
  keeps field (load_full_message src).
Proof.
  intros H. destruct src; simpl; frame. apply keeps_modify. intros st. apply H.
Qed.

Lemma load_localstorage_keeps {X} (field : store -> X) (src : source) :
  (forall st v, field (set_localstorage st v) = field st) ->
  keeps field (load_localstorage src).
Proof.
  intros H. destruct src; simpl; frame. apply keeps_modify. intros st. apply H.
Qed.

(** C8: a missing source file does not make the load fail, and what it
    would have filled stays as it was: the step of a missing file
    returns at once with the store unchanged, a load from an empty
    directory returns with the store unchanged, and after any load,
    finished or not, the folder set, the message pages (with both
    message exports missing), the full messages and the local storage
    are the old ones when their file is missing. *)
Theorem load_data_absent_sources (fs : files) (st : store) :
  (load_folders Absent st = (Ok tt, st)
   /\ load_messages Absent st = (Ok tt, st)
   /\ load_all_messages Absent st = (Ok tt, st)
   /\ load_full_message Absent st = (Ok tt, st)
   /\ load_localstorage Absent st = (Ok tt, st))
  /\ load_data no_files st = (Ok tt, st)
  /\ (folders_json fs = Absent ->
      folders (store_after fs st) = folders st)
  /\ (messages_json fs = Absent -> all_messages_json fs = Absent ->
      messages (store_after fs st) = messages st)
  /\ (full_message_json fs = Absent ->
      full_messages (store_after fs st) = full_messages st)
  /\ (localstorage_data_json fs = Absent ->
      localstorage (store_after fs st) = localstorage st).
Proof.
  split; [repeat split|]. split; [reflexivity|].
  unfold store_after, load_data.
  repeat split.
  - intros ->. revert st.
    repeat (apply keeps_bind; [|intros _]).
    + apply keeps_ret.
    + now apply load_messages_keeps.
    + now apply load_all_messages_keeps.
    + now apply load_full_message_keeps.
    + now apply load_localstorage_keeps.
  - intros -> ->. revert st.
    repeat (apply keeps_bind; [|intros _]).
    + now apply load_folders_keeps.
    + apply keeps_ret.
    + apply keeps_ret.
    + now apply load_full_message_keeps.
    + now apply load_localstorage_keeps.
  - intros ->. revert st.
    repeat (apply keeps_bind; [|intros _]).
    + now apply load_folders_keeps.
    + now apply load_messages_keeps.
    + now apply load_all_messages_keeps.
    + apply keeps_ret.
    + now apply load_localstorage_keeps.
  - intros ->. revert st.
    repeat (apply keeps_bind; [|intros _]).
    + now apply load_folders_keeps.
    + now apply load_messages_keeps.
    + now apply load_all_messages_keeps.
    + now apply load_full_message_keeps.
    + apply keeps_ret.
Qed.

Lemma load_data_absent_sources_witness :
  folders (store_after only_full_message sample_store) = folders sample_store
  /\ messages (store_after only_full_message sample_store) = messages sample_store
  /\ localstorage (store_after only_full_message sample_store)
     = localstorage sample_store
  /\ full_messages (store_after only_folders sample_store)
     = full_messages sample_store.
Proof.
  pose proof (load_data_absent_sources only_full_message sample_store)
    as (_ & _ & Hfolders & Hmessages & _ & Hlocal).
  pose proof (load_data_absent_sources only_folders sample_store)
    as (_ & _ & _ & _ & Hfull & _).
  split; [|split; [|split]].
  - apply Hfolders. reflexivity.
  - apply Hmessages; reflexivity.
  - apply Hlocal. reflexivity.
  - apply Hfull. reflexivity.
Defined.

(** ** Filing the single-folder export *)

Lemma load_tail_keeps_messages (fs : files) (st : store) :
  all_messages_json fs = Absent ->
  messages
    (snd (bind (load_all_messages (all_messages_json fs))
            (fun _ => bind (load_full_message (full_message_json fs))
                        (fun _ => load_localstorage (localstorage_data_json fs)))
            st))
  = messages st.
Proof.
  intros ->. revert st.
  repeat (apply keeps_bind; [|intros _]).
  - apply keeps_ret.
  - now apply load_full_message_keeps.
  - now apply load_localstorage_keeps.
Qed.

(** C7: the page of messages.json is filed under the folder of the
    first message of its data, and under no other key; an export with
    empty data files nothing. *)
Theorem load_messages_keyed_by_first_folder (fs : files) (st : store)
    (kvs : list (string * json)) :
  messages_json fs = Parsed (JObj kvs) ->
  (forall msg0 rest folder folder_id,
      dict_get String.eqb kvs "data" = Some (JArr (msg0 :: rest)) ->
      Py.get msg0 "folder" = Ok folder ->
      Py.key folder = Ok folder_id ->
      let st' := snd (load_messages (messages_json fs) st) in
      fst (load_messages (messages_json fs) st) = Ok tt
      /\ dict_get pykey_eqb (messages st') folder_id = Some (JObj kvs)
      /\ (forall k, k <> folder_id ->
            dict_get pykey_eqb (messages st') k = dict_get pykey_eqb (messages st) k)
      /\ (folders_json fs <> Malformed -> all_messages_json fs = Absent ->
          messages (store_after fs st)
          = dict_set pykey_eqb (messages st) folder_id (JObj kvs)))
  /\ (dict_get String.eqb kvs "data" = Some (JArr []) ->
      load_messages (messages_json fs) st = (Ok tt, st)
      /\ (all_messages_json fs = Absent ->
          messages (store_after fs st) = messages st)).
Proof.
  intros Hsrc. split.
  - intros msg0 rest folder folder_id Hdata Hfolder Hkey.
    assert (Hstep : forall s, load_messages (messages_json fs) s
                              = (Ok tt, file_page folder_id (JObj kvs) s)).
    { intros s. rewrite Hsrc. unfold load_messages, bind, lift; simpl.
      rewrite Hdata. simpl. rewrite Hfolder, Hkey. reflexivity. }
    rewrite Hstep. simpl.
    split; [reflexivity|]. split; [|split].
    + apply dict_get_set_same, pykey_eqb_eq.
    + intros k Hk. now apply dict_get_set_other; [apply pykey_eqb_eq|].
    + intros Hfolders Hbulk. unfold store_after, load_data.
      unfold bind at 1.
      destruct (folders_json fs) as [| |j]; simpl; [|congruence|].
      * unfold bind at 1. rewrite Hstep.
        now rewrite load_tail_keeps_messages.
      * unfold bind at 1. rewrite Hstep.
        now rewrite load_tail_keeps_messages.
  - intros Hdata.
    assert (Hstep : forall s, load_messages (messages_json fs) s = (Ok tt, s)).
    { intros s. rewrite Hsrc. unfold load_messages, bind, lift; simpl.
      now rewrite Hdata. }
    split; [apply Hstep|].
    intros Hbulk. unfold store_after, load_data.
    unfold bind at 1.
    pose proof (load_folders_keeps messages (folders_json fs)
                  (fun _ _ => eq_refl) st) as Hf.
    destruct (load_folders (folders_json fs) st) as [[[]|e] st1]; simpl in *;
      [|exact Hf].
    unfold bind at 1. rewrite Hstep.
    now rewrite load_tail_keeps_messages.
Qed.

Lemma load_messages_keyed_by_first_folder_witness :
  dict_get pykey_eqb
    (messages (snd (load_messages (Parsed (JObj export_folder7)) sample_store)))
    (KInt 7)
  = Some (JObj export_folder7)
  /\ messages (store_after
                 (mkFiles Absent (Parsed (JObj export_folder7)) Absent Absent Absent)
                 sample_store)
     = dict_set pykey_eqb (messages sample_store) (KInt 7) (JObj export_folder7)
  /\ messages (store_after
                 (mkFiles Absent (Parsed (JObj export_empty)) Absent Absent Absent)
                 sample_store)
     = messages sample_store.
Proof.
  split; [|split].
  - apply (proj1 (load_messages_keyed_by_first_folder
                    (mkFiles Absent (Parsed (JObj export_folder7)) Absent Absent Absent)
                    sample_store export_folder7 eq_refl)
             (msg 1 7) [msg 2 7] (JNum 7) (KInt 7) eq_refl eq_refl eq_refl).
  - apply (proj1 (load_messages_keyed_by_first_folder
                    (mkFiles Absent (Parsed (JObj export_folder7)) Absent Absent Absent)
                    sample_store export_folder7 eq_refl)
             (msg 1 7) [msg 2 7] (JNum 7) (KInt 7) eq_refl eq_refl eq_refl);
      [discriminate | reflexivity].
  - apply (proj2 (load_messages_keyed_by_first_folder
                    (mkFiles Absent (Parsed (JObj export_empty)) Absent Absent Absent)
                    sample_store export_empty eq_refl) eq_refl).
    reflexivity.
Defined.

(** ** Loading twice *)

(** C3: a second load from unchanged files should leave the store as
    the first load did.  With all_messages.json present both loads
    return, but the second appends the export to the pages the first one
    made: folder 1 lists its message once after one load and twice after
    two. *)
Theorem reload_appends_bulk_export :
  let once := store_after bulk_one_message data_store0 in
  let twice := snd (reload_data bulk_one_message once) in
  returns bulk_one_message data_store0
  /\ fst (reload_data bulk_one_message once)
     = Ok (JObj [("status", JStr "ok"); ("message", JStr "Data reloaded")], 200)
  /\ get_messages once (Some 1) 1 50 "date" "desc"
     = Ok (page_body 1 1 true true (JArr [msg 1 1]), 200)
  /\ get_messages twice (Some 1) 1 50 "date" "desc"
     = Ok (page_body 1 2 true true (JArr [msg 1 1; msg 1 1]), 200)
  /\ messages twice <> messages once.
Proof.
  repeat split; try reflexivity.
  vm_compute. discriminate.
Qed.

Lemma load_folders_assigns (src : source) :
  exists v, assigns (load_folders src)
              (fun st => match v with Some j => set_folders st j | None => st end).
Proof.
  destruct src as [| |j].
  - exists None. now right.
  - exists None. left. now exists JSONDecodeError.
  - exists (Some j). now right.
Qed.

Lemma load_localstorage_assigns (src : source) :
  exists v, assigns (load_localstorage src)
              (fun st => match v with Some j => set_localstorage st j | None => st end).
Proof.
  destruct src as [| |j].
  - exists None. now right.
  - exists None. left. now exists JSONDecodeError.
  - exists (Some j). now right.
Qed.

Lemma load_messages_assigns (src : source) :
  exists v, assigns (load_messages src)
              (fun st => match v with Some (k, p) => file_page k p st | None => st end).
Proof.
  destruct src as [| |j].
  - exists None. now right.
  - exists None. left. now exists JSONDecodeError.
  - unfold load_messages, bind, lift.
    destruct (Py.get j "data") as [data|e];
      [|exists None; left; now exists e].
    destruct (Py.truthy data); [|exists None; now right].
    destruct (Py.first data) as [msg0|e];
      [|exists None; left; now exists e].
    destruct (Py.get msg0 "folder") as [fld|e];
      [|exists None; left; now exists e].
    destruct (Py.key fld) as [k|e];
      [|exists None; left; now exists e].
    exists (Some (k, j)). now right.
Qed.

Lemma load_full_message_assigns (src : source) :
  exists v, assigns (load_full_message src)
              (fun st => match v with
                         | Some (k, m) => file_full_message k m st
                         | None => st
                         end).
Proof.
  destruct src as [| |j].
  - exists None. now right.
  - exists None. left. now exists JSONDecodeError.
  - unfold load_full_message, bind, lift.
    destruct (Py.get j "id") as [id|e];
      [|exists None; left; now exists e].
    destruct (Py.truthy id); [|exists None; now right].
    destruct (Py.key id) as [k|e];
      [|exists None; left; now exists e].
    exists (Some (k, j)). now right.
Qed.

(** Without a bulk export a second load ends as the first one did, with
    the same store: every other source overwrites what it files. *)
Lemma reload_without_bulk_export (fs : files) (st : store) :
  all_messages_json fs = Absent ->
  load_data fs (store_after fs st) = load_data fs st.
Proof.
  intros Hbulk. unfold store_after, load_data. rewrite Hbulk.
  destruct (load_folders_assigns (folders_json fs)) as [v1 [[e1 H1]|H1]];
  destruct (load_messages_assigns (messages_json fs)) as [v2 [[e2 H2]|H2]];
  destruct (load_full_message_assigns (full_message_json fs)) as [v4 [[e4 H4]|H4]];
  destruct (load_localstorage_assigns (localstorage_data_json fs)) as [v5 [[e5 H5]|H5]];
  unfold bind; simpl;
  repeat (rewrite ?H1, ?H2, ?H4, ?H5; simpl);
  try reflexivity;
  destruct st as [fo me fu lo], v1 as [j1|], v2 as [[k2 p2]|], v4 as [[k4 m4]|],
           v5 as [j5|];
  unfold file_page, file_full_message, set_folders, set_messages,
         set_full_messages, set_localstorage; simpl;
  rewrite ?(dict_set_twice _ _ pykey_eqb pykey_eqb_eq); reflexivity.
Qed.


(** * Further properties of the resolvers and the loader *)

(** ** Pagination *)

Lemma get_messages_paginates_witness :
  get_messages sample_store (Some 7) 2 2 "date" "desc"
  = Ok (page_body 2 1 false true (JArr [msg 3 7]), 200).
Proof.
  apply (get_messages_paginates sample_store 7 2 2 "date" "desc"
           [("data", JArr [msg 1 7; msg_with_body 2 7 "hello"; msg 3 7]);
            ("metadata", JObj [])]
           [msg 1 7; msg_with_body 2 7 "hello"; msg 3 7]);
    first [reflexivity | discriminate | lia].
Defined.

Lemma firstn_plus {A} (a b : nat) (l : list A) :
  firstn (a + b) l = (firstn a l ++ firstn b (skipn a l))%list.
Proof.
  revert l. induction a as [|a IH]; intros l; simpl; [reflexivity|].
  destruct l as [|x l]; simpl.
  - now rewrite firstn_nil.
  - now rewrite IH.
Qed.

Lemma slice_list_sublist {A} (l : list A) (start stop : Z) :
  exists before after,
    l = (before ++ Py.slice_list l start stop ++ after)%list.
Proof.
  unfold Py.slice_list.
  generalize (Z.to_nat (Py.clamp (Z.of_nat (List.length l)) stop
                        - Py.clamp (Z.of_nat (List.length l)) start)).
  generalize (Z.to_nat (Py.clamp (Z.of_nat (List.length l)) start)).
  intros lo n.
  exists (firstn lo l), (skipn n (skipn lo l)).
  now rewrite firstn_skipn, firstn_skipn.
Qed.

(** Whatever integers page and size are, listing a folder (other than
    0) that is filed as a page answers 200 with a run of consecutive
    stored messages and their number as count. *)
Theorem get_messages_any_page_size (st : store) (n page size : Z)
    (sort sort_direction : string) (kvs : list (string * json)) (l : list json) :
  n <> 0 ->
  dict_get pykey_eqb (messages st) (KInt n) = Some (JObj kvs) ->
  dict_get String.eqb kvs "data" = Some (JArr l) ->
  exists before data after,
    l = (before ++ data ++ after)%list
    /\ get_messages st (Some n) page size sort sort_direction
       = Ok (page_body page (Z.of_nat (List.length data)) (page =? 1)
               ((page - 1) * size + size >=? Z.of_nat (List.length l))
               (JArr data), 200).
Proof.
  intros Hn Hv Hdata.
  destruct (slice_list_sublist l ((page - 1) * size) ((page - 1) * size + size))
    as (before & after & Hl).
  exists before, (Py.slice_list l ((page - 1) * size) ((page - 1) * size + size)), after.
  split; [exact Hl|].
  unfold get_messages. rewrite (folder_known_lookup st n _ Hn Hv), Hv. simpl.
  unfold dict_mem. rewrite Hdata. reflexivity.
Qed.

Lemma get_messages_any_page_size_witness :
  exists before data after,
    [msg 1 7; msg_with_body 2 7 "hello"; msg 3 7] = (before ++ data ++ after)%list
    /\ get_messages sample_store (Some 7) (-3) 2 "date" "desc"
       = Ok (page_body (-3) (Z.of_nat (List.length data)) (-3 =? 1)
               ((-3 - 1) * 2 + 2 >=? Z.of_nat (List.length [msg 1 7; msg_with_body 2 7 "hello"; msg 3 7]))
               (JArr data), 200).
Proof.
  apply (get_messages_any_page_size sample_store 7 (-3) 2 "date" "desc"
           [("data", JArr [msg 1 7; msg_with_body 2 7 "hello"; msg 3 7]);
            ("metadata", JObj [])]);
    first [reflexivity | discriminate].
Defined.

(** The count of a page is what is left of the list after the pages
    before it, capped by size: never more than size, and exactly size
    on every page that is not flagged last. *)
Theorem get_messages_count (st : store) (n page size : Z)
    (sort sort_direction : string) (kvs : list (string * json)) (l : list json) :
  n <> 0 ->
  dict_get pykey_eqb (messages st) (KInt n) = Some (JObj kvs) ->
  dict_get String.eqb kvs "data" = Some (JArr l) ->
  1 <= page -> 0 < size ->
  let r := get_messages st (Some n) page size sort sort_direction in
  let total := Z.of_nat (List.length l) in
  let count := Z.max 0 (Z.min size (total - (page - 1) * size)) in
  metadata r "count" = Ok (JNum count)
  /\ 0 <= count <= size
  /\ Z.of_nat (List.length (listed r)) = count
  /\ (metadata r "last" = Ok (JBool false) -> count = size).
Proof.
  intros Hn Hv Hdata Hpage Hsize r total count.
  assert (Hr := get_messages_paginates st n page size sort sort_direction kvs l
                  Hn Hv Hdata Hpage Hsize).
  cbv zeta in Hr. fold r in Hr.
  assert (Hlen : Z.of_nat (List.length
                   (firstn (Z.to_nat size) (skipn (Z.to_nat ((page - 1) * size)) l)))
                 = count).
  { rewrite length_firstn, length_skipn. unfold count, total. nia. }
  rewrite Hlen in Hr. rewrite Hr. simpl.
  split; [reflexivity|]. split; [unfold count; lia|]. split; [exact Hlen|].
  intros Hlast. injection Hlast as Hlast.
  apply Z.leb_gt in Hlast. unfold count. fold total in Hlast. lia.
Qed.

Lemma get_messages_count_witness :
  let r := get_messages sample_store (Some 7) 1 2 "date" "desc" in
  metadata r "count" = Ok (JNum (Z.max 0 (Z.min 2 (3 - (1 - 1) * 2))))
  /\ 0 <= Z.max 0 (Z.min 2 (3 - (1 - 1) * 2)) <= 2
  /\ Z.of_nat (List.length (listed r)) = Z.max 0 (Z.min 2 (3 - (1 - 1) * 2))
  /\ (metadata r "last" = Ok (JBool false) -> Z.max 0 (Z.min 2 (3 - (1 - 1) * 2)) = 2).
Proof.
  apply (get_messages_count sample_store 7 1 2 "date" "desc"
           [("data", JArr [msg 1 7; msg_with_body 2 7 "hello"; msg 3 7]);
            ("metadata", JObj [])]
           [msg 1 7; msg_with_body 2 7 "hello"; msg 3 7]);
    first [reflexivity | discriminate | lia].
Defined.

Lemma listed_page (st : store) (n page size : Z) (sort sort_direction : string)
    (kvs : list (string * json)) (l : list json) :
  n <> 0 ->
  dict_get pykey_eqb (messages st) (KInt n) = Some (JObj kvs) ->
  dict_get String.eqb kvs "data" = Some (JArr l) ->
  1 <= page -> 0 < size ->
  listed (get_messages st (Some n) page size sort sort_direction)
  = firstn (Z.to_nat size) (skipn (Z.to_nat ((page - 1) * size)) l).
Proof.
  intros Hn Hv Hdata Hpage Hsize.
  now rewrite (get_messages_paginates st n page size sort sort_direction kvs l).
Qed.

(** Pages 1 to k, read one after the other, are the first k * size
    stored messages in their stored order: no message is skipped or
    served twice, and enough pages give the whole list. *)
Theorem get_messages_pages_tile (st : store) (n size : Z) (k : nat)
    (sort sort_direction : string) (kvs : list (string * json)) (l : list json) :
  n <> 0 ->
  dict_get pykey_eqb (messages st) (KInt n) = Some (JObj kvs) ->
  dict_get String.eqb kvs "data" = Some (JArr l) ->
  0 < size ->
  flat_map
    (fun p => listed (get_messages st (Some n) (Z.of_nat p) size sort sort_direction))
    (seq 1 k)
  = firstn (k * Z.to_nat size) l
  /\ (Z.of_nat (List.length l) <= Z.of_nat k * size ->
      flat_map
        (fun p => listed (get_messages st (Some n) (Z.of_nat p) size sort sort_direction))
        (seq 1 k)
      = l).
Proof.
  intros Hn Hv Hdata Hsize.
  assert (Htile :
    flat_map
      (fun p => listed (get_messages st (Some n) (Z.of_nat p) size sort sort_direction))
      (seq 1 k)
    = firstn (k * Z.to_nat size) l).
  { induction k as [|k IH]; [reflexivity|].
    rewrite seq_S, flat_map_app, IH. cbn [flat_map Nat.add].
    rewrite (listed_page st n (Z.of_nat (S k)) size sort sort_direction kvs l)
      by (assumption || lia).
    rewrite app_nil_r.
    replace (Z.to_nat ((Z.of_nat (S k) - 1) * size)) with (k * Z.to_nat size)%nat
      by nia.
    rewrite <- firstn_plus. f_equal. lia. }
  split; [exact Htile|].
  intros Hall. rewrite Htile. apply firstn_all2. nia.
Qed.

Lemma get_messages_pages_tile_witness :
  flat_map
    (fun p => listed (get_messages sample_store (Some 7) (Z.of_nat p) 2 "date" "desc"))
    (seq 1 2)
  = [msg 1 7; msg_with_body 2 7 "hello"; msg 3 7].
Proof.
  apply (proj2 (get_messages_pages_tile sample_store 7 2 2 "date" "desc"
                  [("data", JArr [msg 1 7; msg_with_body 2 7 "hello"; msg 3 7]);
                   ("metadata", JObj [])]
                  [msg 1 7; msg_with_body 2 7 "hello"; msg 3 7]
                  ltac:(discriminate) eq_refl eq_refl ltac:(lia))).
  simpl. lia.
Defined.

(** A page is flagged last exactly when the page after it is empty. *)
Theorem get_messages_last_iff_next_empty (st : store) (n page size : Z)
    (sort sort_direction : string) (kvs : list (string * json)) (l : list json) :
  n <> 0 ->
  dict_get pykey_eqb (messages st) (KInt n) = Some (JObj kvs) ->
  dict_get String.eqb kvs "data" = Some (JArr l) ->
  1 <= page -> 0 < size ->
  metadata (get_messages st (Some n) page size sort sort_direction) "last"
  = Ok (JBool true)
  <-> listed (get_messages st (Some n) (page + 1) size sort sort_direction) = [].
Proof.
  intros Hn Hv Hdata Hpage Hsize.
  rewrite (listed_page st n (page + 1) size sort sort_direction kvs l)
    by (assumption || lia).
  rewrite (get_messages_paginates st n page size sort sort_direction kvs l)
    by assumption.
  simpl.
  replace ((page + 1 - 1) * size) with ((page - 1) * size + size) by lia.
  set (stop := (page - 1) * size + size).
  assert (Hstop : 0 <= stop) by (unfold stop; nia).
  split.
  - intros H. injection H as H. apply Z.leb_le in H.
    rewrite skipn_all2 by lia. apply firstn_nil.
  - intros H. f_equal. f_equal. apply Z.leb_le.
    apply (f_equal (@List.length json)) in H.
    rewrite length_firstn, length_skipn in H. simpl in H. lia.
Qed.

Lemma get_messages_last_iff_next_empty_witness :
  metadata (get_messages sample_store (Some 7) 2 2 "date" "desc") "last"
  = Ok (JBool true)
  <-> listed (get_messages sample_store (Some 7) (2 + 1) 2 "date" "desc") = [].
Proof.
  apply (get_messages_last_iff_next_empty sample_store 7 2 2 "date" "desc"
           [("data", JArr [msg 1 7; msg_with_body 2 7 "hello"; msg 3 7]);
            ("metadata", JObj [])]
           [msg 1 7; msg_with_body 2 7 "hello"; msg 3 7]);
    first [reflexivity | discriminate | lia].
Defined.

(** A negative size is not refused: on page 1 the slice then ends
    |size| items before the end of the list, so the k last messages are
    cut off and the rest is served as one page that is not flagged
    last. *)
Theorem get_messages_negative_size (st : store) (n k : Z)
    (sort sort_direction : string) (kvs : list (string * json)) (l : list json) :
  n <> 0 ->
  dict_get pykey_eqb (messages st) (KInt n) = Some (JObj kvs) ->
  dict_get String.eqb kvs "data" = Some (JArr l) ->
  0 < k <= Z.of_nat (List.length l) ->
  get_messages st (Some n) 1 (- k) sort sort_direction
  = Ok (page_body 1 (Z.of_nat (List.length l) - k) true false
          (JArr (firstn (Z.to_nat (Z.of_nat (List.length l) - k)) l)), 200).
Proof.
  intros Hn Hv Hdata Hk.
  unfold get_messages. rewrite (folder_known_lookup st n _ Hn Hv), Hv. simpl.
  unfold dict_mem. rewrite Hdata. simpl.
  unfold Py.slice_list, Py.clamp. simpl.
  destruct (Z.ltb_spec (- k) 0) as [_|?]; [|lia].
  rewrite Z.min_l by lia. rewrite Z.sub_0_r.
  rewrite (Z.max_l (- k + Z.of_nat (List.length l)) 0) by lia.
  replace (- k + Z.of_nat (List.length l)) with (Z.of_nat (List.length l) - k) by lia.
  change (skipn (Z.to_nat 0) l) with l.
  rewrite length_firstn.
  replace (Z.of_nat (Nat.min (Z.to_nat (Z.of_nat (List.length l) - k)) (List.length l)))
    with (Z.of_nat (List.length l) - k) by lia.
  replace (- k >=? Z.of_nat (List.length l)) with false; [reflexivity|].
  symmetry. rewrite Z.geb_leb. apply Z.leb_gt. lia.
Qed.

Lemma get_messages_negative_size_witness :
  get_messages sample_store (Some 7) 1 (- 1) "date" "desc"
  = Ok (page_body 1 (3 - 1) true false
          (JArr (firstn (Z.to_nat (3 - 1))
                   [msg 1 7; msg_with_body 2 7 "hello"; msg 3 7])), 200).
Proof.
  apply (get_messages_negative_size sample_store 7 1 "date" "desc"
           [("data", JArr [msg 1 7; msg_with_body 2 7 "hello"; msg 3 7]);
            ("metadata", JObj [])]
           [msg 1 7; msg_with_body 2 7 "hello"; msg 3 7]);
    first [reflexivity | discriminate | simpl; lia].
Defined.

(** ** What every load keeps *)

Section Steps.
Context (R : store -> store -> Prop).
Hypothesis R_refl : forall st, R st st.
Hypothesis R_trans : forall a b c, R a b -> R b c -> R a c.

Lemma steps_ret {A} (a : A) : steps R (ret a).
Proof. intros st. apply R_refl. Qed.

Lemma steps_bind {A B} (c : M A) (k : A -> M B) :
  steps R c -> (forall a, steps R (k a)) -> steps R (bind c k).
Proof.
  intros Hc Hk st. unfold bind.
  specialize (Hc st). destruct (c st) as [[a|e] st']; simpl in *.
  - apply (R_trans _ _ _ Hc). apply Hk.
  - exact Hc.
Qed.

Lemma steps_for_each {A} (l : list A) (body : A -> M unit) :
  (forall x, steps R (body x)) -> steps R (for_each l body).
Proof.
  intros Hbody. induction l as [|x l IH]; simpl.
  - apply steps_ret.
  - apply steps_bind; [apply Hbody | intros _; exact IH].
Qed.

(** The five steps of a load, one after the other. *)
Lemma steps_load_data (fs : files) :
  (forall src, steps R (load_folders src)) ->
  (forall src, steps R (load_messages src)) ->
  (forall m, steps R (group_message m)) ->
  (forall src, steps R (load_full_message src)) ->
  (forall src, steps R (load_localstorage src)) ->
  steps R (load_data fs).
Proof.
  intros H1 H2 H3 H4 H5. unfold load_data.
  repeat (apply steps_bind; [|intros _]); auto.
  destruct (all_messages_json fs) as [| |j]; simpl;
    try (intros st; apply R_refl).
  destruct (Py.truthy j); [|apply steps_ret].
  apply steps_bind; [intros st; apply R_refl|].
  intros msgs. now apply steps_for_each.
Qed.
End Steps.

Lemma forallb_dict_set {K V} (eqb : K -> K -> bool) (p : V -> bool)
    (d : dict K V) (k : K) (v : V) :
  forallb p (dict_values d) = true -> p v = true ->
  forallb p (dict_values (dict_set eqb d k v)) = true.
Proof.
  intros Hd Hv. induction d as [|[k' v'] d IH]; simpl in *.
  - now rewrite Hv.
  - apply andb_prop in Hd as [Hv' Hd].
    destruct (eqb k k'); simpl.
    + now rewrite Hv, Hd.
    + now rewrite Hv', IH.
Qed.

Lemma dict_mem_set_mono {K V} (eqb : K -> K -> bool)
    (d : dict K V) (k k' : K) (v : V) :
  dict_mem eqb d k' = true -> dict_mem eqb (dict_set eqb d k v) k' = true.
Proof.
  unfold dict_mem. induction d as [|[k0 v0] d IH]; simpl; [discriminate|].
  destruct (eqb k k0) eqn:E; simpl; destruct (eqb k' k0); auto.
Qed.

Lemma dict_get_In {K V} (eqb : K -> K -> bool) (d : dict K V) (k : K) (v : V) :
  dict_get eqb d k = Some v -> In v (dict_values d).
Proof.
  induction d as [|[k' v'] d IH]; simpl; [discriminate|].
  destruct (eqb k k'); intros H.
  - left. congruence.
  - right. now apply IH.
Qed.

(** What messages.json files is a page. *)
Lemma exported_page (messages_data data msg0 fld : json) :
  Py.get messages_data "data" = Ok data ->
  Py.first data = Ok msg0 ->
  Py.get msg0 "folder" = Ok fld ->
  is_page messages_data = true.
Proof.
  intros Hdata Hfirst Hfld.
  destruct messages_data as [| | | | |kvs]; try discriminate.
  simpl in *. injection Hdata as Hdata.
  destruct (dict_get String.eqb kvs "data") as [d|]; subst data;
    [|discriminate].
  destruct d as [| | |s|l|o]; try discriminate; [|reflexivity].
  simpl in Hfirst. destruct (Py.chars s) as [|c cs] eqn:Hc; [discriminate|].
  injection Hfirst as <-. unfold Py.chars in Hc.
  destruct (list_ascii_of_string s); [discriminate|].
  simpl in Hc. injection Hc as <- _. discriminate.
Qed.

(** What the bulk loop writes back is a page. *)
Lemma appended_page (entry m entry' : json) :
  append_to_page entry m = Ok entry' -> is_page entry' = true.
Proof.
  destruct entry as [| | | | |kvs]; try discriminate. simpl.
  destruct (dict_get String.eqb kvs "data") as [[| | | |l|]|]; try discriminate.
  intros H. injection H as <-. simpl.
  now rewrite (dict_get_set_same _ _ String.eqb String.eqb_eq).
Qed.

Lemma paged_file_page (st : store) (k : pykey) (v : json) :
  paged st = true -> is_page v = true -> paged (file_page k v st) = true.
Proof. intros Hst Hv. now apply forallb_dict_set. Qed.

(** From a store whose folder entries are all pages, a load, complete or
    cut short by an exception, leaves a store whose folder entries are
    all pages: nothing the loader files has the legacy shape. *)
Theorem load_data_keeps_paged (fs : files) (st : store) :
  paged st = true -> paged (store_after fs st) = true.
Proof.
  revert st.
  change (steps (fun s s' => paged s = true -> paged s' = true) (load_data fs)).
  apply steps_load_data; auto.
  - intros [| |j] st; simpl; auto.
  - intros [| |j] st; simpl; auto.
    unfold bind, lift.
    destruct (Py.get j "data") as [data|] eqn:Hdata; simpl; auto.
    destruct (Py.truthy data); simpl; auto.
    destruct (Py.first data) as [msg0|] eqn:Hfirst; simpl; auto.
    destruct (Py.get msg0 "folder") as [fld|] eqn:Hfld; simpl; auto.
    destruct (Py.key fld) as [k|]; simpl; auto.
    intros Hst. apply paged_file_page; [exact Hst|].
    exact (exported_page _ _ _ _ Hdata Hfirst Hfld).
  - intros m st. unfold group_message, bind, lift, gets, modify.
    destruct (Py.get m "folder") as [fld|]; simpl; auto.
    destruct (Py.key fld) as [k|]; simpl; auto.
    intros Hst.
    assert (Htail : forall st1, paged st1 = true ->
              paged (snd (match dict_get pykey_eqb (messages st1) k with
                          | Some entry =>
                              if Py.is_dict entry
                              then fun st0 : store =>
                                   match append_to_page entry m with
                                   | Ok entry' => (Ok tt, file_page k entry' st0)
                                   | Raise e => (Raise e, st0)
                                   end
                              else ret tt
                          | None => raise KeyError
                          end st1)) = true).
    { intros st1 Hst1.
      destruct (dict_get pykey_eqb (messages st1) k) as [entry|]; simpl; auto.
      destruct (Py.is_dict entry); simpl; auto.
      destruct (append_to_page entry m) as [entry'|] eqn:Happ; simpl; auto.
      apply paged_file_page; [exact Hst1|].
      exact (appended_page _ _ _ Happ). }
    destruct (dict_mem pykey_eqb (messages st) k); cbn [negb ret].
    + apply Htail, Hst.
    + apply Htail. now apply paged_file_page.
  - intros [| |j] st; simpl; auto.
    unfold bind, lift.
    destruct (Py.get j "id") as [id|]; simpl; auto.
    destruct (Py.truthy id); simpl; auto.
    destruct (Py.key id) as [k|]; simpl; auto.
  - intros [| |j] st; simpl; auto.
Qed.

Lemma load_data_keeps_paged_witness :
  paged (store_after bulk_one_message
           (store_after
              (mkFiles Absent (Parsed (JObj export_folder7)) Absent Absent Absent)
              data_store0)) = true.
Proof.
  apply (load_data_keeps_paged bulk_one_message
           (store_after
              (mkFiles Absent (Parsed (JObj export_folder7)) Absent Absent Absent)
              data_store0)).
  reflexivity.
Defined.

Lemma reachable_paged (st : store) : reachable st -> paged st = true.
Proof.
  induction 1 as [|fs st _ IH]; [reflexivity|].
  now apply load_data_keeps_paged.
Qed.

(** In every store the server can reach by loading, a listing never
    raises and never hands back a raw stored value: whatever the folder
    id, page and size, the answer is 200 with the metadata and a list
    of messages. *)
Theorem get_messages_after_loads (st : store) (folder_id : option Z)
    (page size : Z) (sort sort_direction : string) :
  reachable st ->
  exists count first last data,
    get_messages st folder_id page size sort sort_direction
    = Ok (page_body page count first last (JArr data), 200).
Proof.
  intros Hreach. apply reachable_paged in Hreach.
  unfold get_messages.
  destruct (folder_known st folder_id) eqn:Hknown.
  - destruct folder_id as [n|]; [|discriminate].
    unfold folder_known, dict_mem in Hknown.
    destruct (dict_get pykey_eqb (messages st) (KInt n)) as [v|] eqn:Hv;
      [|now rewrite andb_false_r in Hknown].
    assert (Hpage : is_page v = true).
    { unfold paged in Hreach. rewrite forallb_forall in Hreach.
      apply Hreach. exact (dict_get_In _ _ _ _ Hv). }
    destruct v as [| | | | |kvs]; try discriminate. simpl in *.
    unfold dict_mem.
    destruct (dict_get String.eqb kvs "data") as [[| | | |l|]|]; try discriminate.
    simpl. eauto.
  - eauto.
Qed.

Lemma get_messages_after_loads_witness :
  exists count first last data,
    get_messages
      (store_after bulk_one_message (store_after only_folders data_store0))
      (Some 1) 1 50 "date" "desc"
    = Ok (page_body 1 count first last (JArr data), 200).
Proof.
  apply (get_messages_after_loads
           (store_after bulk_one_message (store_after only_folders data_store0))).
  apply reachable_load, reachable_load, reachable_start.
Defined.

(** A load never removes a folder entry or a full message: every key
    filed before is still filed after, also when the load is cut short
    by an exception. *)
Theorem load_data_extends (fs : files) (st : store) :
  extends st (store_after fs st).
Proof.
  revert st. change (steps extends (load_data fs)).
  assert (Hrefl : forall s, extends s s) by (intros s; split; auto).
  assert (Htrans : forall a b c, extends a b -> extends b c -> extends a c).
  { intros a b c [H1 H2] [H3 H4]. split; auto. }
  assert (Hpage : forall k v s, extends s (file_page k v s)).
  { intros k v s. split; [|auto]. intros k' Hk'. simpl.
    now apply dict_mem_set_mono. }
  assert (Hfull : forall k v s, extends s (file_full_message k v s)).
  { intros k v s. split; [auto|]. intros k' Hk'. simpl.
    now apply dict_mem_set_mono. }
  apply steps_load_data; auto.
  - intros [| |j] s; simpl; auto. now split.
  - intros [| |j] s; simpl; auto.
    unfold bind, lift.
    destruct (Py.get j "data") as [data|]; simpl; auto.
    destruct (Py.truthy data); simpl; auto.
    destruct (Py.first data) as [msg0|]; simpl; auto.
    destruct (Py.get msg0 "folder") as [fld|]; simpl; auto.
    destruct (Py.key fld) as [k|]; simpl; auto.
  - intros m. unfold group_message.
    apply steps_bind; [assumption | intros s; apply Hrefl | intros fld].
    apply steps_bind; [assumption | intros s; apply Hrefl | intros k].
    apply steps_bind; [assumption | intros s; apply Hrefl | intros known].
    apply steps_bind; [assumption | | intros _].
    { destruct (negb known); intros s; [apply Hpage | apply Hrefl]. }
    apply steps_bind; [assumption | intros s; apply Hrefl | intros entry].
    destruct entry as [entry|]; [|intros s; apply Hrefl].
    destruct (Py.is_dict entry); [|intros s; apply Hrefl].
    apply steps_bind; [assumption | intros s; apply Hrefl | intros entry' s].
    apply Hpage.
  - intros [| |j] s; simpl; auto.
    unfold bind, lift.
    destruct (Py.get j "id") as [id|]; simpl; auto.
    destruct (Py.truthy id); simpl; auto.
    destruct (Py.key id) as [k|]; simpl; auto.
  - intros [| |j] s; simpl; auto. now split.
Qed.

(** ** Grouping the bulk export *)

Lemma page_messages_data (kvs : list (string * json)) (l : list json) :
  dict_get String.eqb kvs "data" = Some (JArr l) ->
  page_messages (JObj kvs) = l.
Proof.
  intros H. unfold page_messages, page_container, Py.has_key, Py.item, dict_mem.
  simpl. now rewrite H.
Qed.

Lemma is_page_data (v : json) :
  is_page v = true ->
  exists kvs l, v = JObj kvs /\ dict_get String.eqb kvs "data" = Some (JArr l).
Proof.
  destruct v as [| | | | |kvs]; try discriminate. simpl.
  destruct (dict_get String.eqb kvs "data") as [[| | | |l|]|] eqn:Hdata;
    try discriminate.
  intros _. now exists kvs, l.
Qed.

Lemma folder_key_spec (m : json) (k : pykey) :
  folder_key m = Some k ->
  exists fld, Py.get m "folder" = Ok fld /\ Py.key fld = Ok k.
Proof.
  unfold folder_key.
  destruct (Py.get m "folder") as [fld|]; [|discriminate].
  destruct (Py.key fld) as [k'|] eqn:Hk; [|discriminate].
  intros H. injection H as <-. eauto.
Qed.

Lemma page_data_file_page (st : store) (k : pykey) (kvs : list (string * json))
    (l : list json) :
  dict_get String.eqb kvs "data" = Some (JArr l) ->
  page_data (file_page k (JObj kvs) st) k = l.
Proof.
  intros H. unfold page_data, file_page. simpl.
  rewrite (dict_get_set_same _ _ pykey_eqb pykey_eqb_eq).
  now apply page_messages_data.
Qed.

Lemma page_data_file_page_other (st : store) (k k' : pykey) (v : json) :
  k' <> k -> page_data (file_page k v st) k' = page_data st k'.
Proof.
  intros H. unfold page_data, file_page. simpl.
  now rewrite (dict_get_set_other _ _ pykey_eqb pykey_eqb_eq).
Qed.

(** One turn of the bulk loop on a store of pages: the message goes to
    the end of the page of its folder, which is created when missing. *)
Lemma group_message_files (st : store) (m : json) (k : pykey) :
  folder_key m = Some k ->
  paged st = true ->
  exists st',
    group_message m st = (Ok tt, st')
    /\ paged st' = true
    /\ page_data st' k = (page_data st k ++ [m])%list
    /\ (forall k', k' <> k -> page_data st' k' = page_data st k').
Proof.
  intros Hkey Hpaged.
  destruct (folder_key_spec m k Hkey) as (fld & Hfld & Hk).
  unfold group_message, bind, lift, gets, modify. rewrite Hfld, Hk.
  unfold dict_mem.
  destruct (dict_get pykey_eqb (messages st) k) as [entry|] eqn:Hentry;
    cbn [negb ret].
  - rewrite Hentry.
    assert (Hpage : is_page entry = true).
    { unfold paged in Hpaged. rewrite forallb_forall in Hpaged.
      apply Hpaged. exact (dict_get_In _ _ _ _ Hentry). }
    destruct (is_page_data entry Hpage) as (kvs & l & -> & Hdata).
    simpl. rewrite Hdata.
    eexists. split; [reflexivity|].
    assert (Hnew : dict_get String.eqb
                     (dict_set String.eqb kvs "data" (JArr (l ++ [m]))) "data"
                   = Some (JArr (l ++ [m])))
      by apply (dict_get_set_same _ _ String.eqb String.eqb_eq).
    split; [|split].
    + apply paged_file_page; [exact Hpaged|]. simpl. now rewrite Hnew.
    + rewrite (page_data_file_page st k _ _ Hnew).
      unfold page_data. rewrite Hentry. now rewrite (page_messages_data kvs l Hdata).
    + intros k' Hk'. now apply page_data_file_page_other.
  - unfold file_page at 1. simpl.
    rewrite (dict_get_set_same _ _ pykey_eqb pykey_eqb_eq). simpl.
    eexists. split; [reflexivity|].
    split; [|split].
    + apply paged_file_page; [|reflexivity].
      now apply (paged_file_page st k empty_page).
    + rewrite (page_data_file_page (file_page k empty_page st) k
                 [("data", JArr [m]); ("metadata", JObj [])] [m] eq_refl).
      unfold page_data. now rewrite Hentry.
    + intros k' Hk'. now rewrite !page_data_file_page_other.
Qed.

Lemma in_folder_same (m : json) (k : pykey) :
  folder_key m = Some k -> in_folder k m = true.
Proof. intros H. unfold in_folder. rewrite H. now apply pykey_eqb_eq. Qed.

Lemma in_folder_other (m : json) (k k' : pykey) :
  folder_key m = Some k -> k' <> k -> in_folder k' m = false.
Proof.
  intros H Hne. unfold in_folder. rewrite H.
  destruct (pykey_eqb k k') eqn:E; [|reflexivity].
  apply pykey_eqb_eq in E. congruence.
Qed.

Lemma pykey_eq_dec_aux (a b : pykey) : a = b \/ a <> b.
Proof.
  destruct (pykey_eqb a b) eqn:E.
  - left. now apply pykey_eqb_eq.
  - right. intros H. apply pykey_eqb_eq in H. congruence.
Qed.

Lemma for_each_group_message (msgs : list json) (st : store) :
  (forall m, In m msgs -> folder_key m <> None) ->
  paged st = true ->
  exists st',
    for_each msgs group_message st = (Ok tt, st')
    /\ paged st' = true
    /\ forall k, page_data st' k
                 = (page_data st k ++ filter (in_folder k) msgs)%list.
Proof.
  revert st. induction msgs as [|m msgs IH]; intros st Hkeys Hpaged.
  - exists st. split; [reflexivity|]. split; [exact Hpaged|].
    intros k. simpl. now rewrite app_nil_r.
  - destruct (folder_key m) as [km|] eqn:Hkm;
      [|now elim (Hkeys m (or_introl eq_refl))].
    destruct (group_message_files st m km Hkm Hpaged)
      as (st1 & Hrun1 & Hpaged1 & Hsame & Hother).
    destruct (IH st1 (fun x Hx => Hkeys x (or_intror Hx)) Hpaged1)
      as (st' & Hrun & Hpaged' & Hdata).
    exists st'. split; [|split; [exact Hpaged'|]].
    + simpl. unfold bind. now rewrite Hrun1.
    + intros k. rewrite Hdata. simpl.
      destruct (pykey_eq_dec_aux k km) as [->|Hne].
      * rewrite Hsame, (in_folder_same m km Hkm). now rewrite <- app_assoc.
      * now rewrite (Hother k Hne), (in_folder_other m km k Hkm Hne).
Qed.

(** On a store of pages, a bulk export whose messages are JSON objects
    with a hashable folder is loaded without an exception, and the page
    of every folder key is what it was followed by the messages of that
    folder in the order of the export; the other three fields are not
    touched. *)
Theorem load_all_messages_groups (msgs : list json) (st : store) :
  (forall m, In m msgs -> folder_key m <> None) ->
  paged st = true ->
  exists st',
    load_all_messages (Parsed (JArr msgs)) st = (Ok tt, st')
    /\ (forall k, page_data st' k
                  = (page_data st k ++ filter (in_folder k) msgs)%list)
    /\ paged st' = true
    /\ folders st' = folders st
    /\ full_messages st' = full_messages st
    /\ localstorage st' = localstorage st.
Proof.
  intros Hkeys Hpaged.
  destruct (for_each_group_message msgs st Hkeys Hpaged)
    as (st' & Hrun & Hpaged' & Hdata).
  assert (Hload : load_all_messages (Parsed (JArr msgs)) st = (Ok tt, st')).
  { destruct msgs as [|m msgs].
    - simpl in *. exact Hrun.
    - unfold load_all_messages. cbn [Py.truthy Py.iter].
      unfold bind, lift. exact Hrun. }
  exists st'. split; [exact Hload|]. split; [exact Hdata|]. split; [exact Hpaged'|].
  pose proof (load_all_messages_keeps folders (Parsed (JArr msgs))
                (fun _ _ => eq_refl) st) as H1.
  pose proof (load_all_messages_keeps full_messages (Parsed (JArr msgs))
                (fun _ _ => eq_refl) st) as H2.
  pose proof (load_all_messages_keeps localstorage (Parsed (JArr msgs))
                (fun _ _ => eq_refl) st) as H3.
  rewrite Hload in H1, H2, H3. auto.
Qed.

Lemma load_all_messages_groups_witness :
  exists st',
    load_all_messages (Parsed (JArr [msg 4 7; msg 5 8; msg 6 7]))
      (store_after (mkFiles Absent (Parsed (JObj export_folder7)) Absent Absent Absent)
         data_store0)
    = (Ok tt, st')
    /\ page_data st' (KInt 7) = [msg 1 7; msg 2 7; msg 4 7; msg 6 7]
    /\ page_data st' (KInt 8) = [msg 5 8].
Proof.
  destruct (load_all_messages_groups [msg 4 7; msg 5 8; msg 6 7]
              (store_after
                 (mkFiles Absent (Parsed (JObj export_folder7)) Absent Absent Absent)
                 data_store0))
    as (st' & Hrun & Hdata & _).
  - intros m [<-|[<-|[<-|[]]]]; discriminate.
  - reflexivity.
  - exists st'. split; [exact Hrun|].
    split; rewrite Hdata; reflexivity.
Defined.

Lemma bind_ret_around (c : M unit) (st : store) :
  bind (ret tt)
    (fun _ => bind (ret tt)
                (fun _ => bind c (fun _ => bind (ret tt) (fun _ => ret tt)))) st
  = c st.
Proof.
  unfold bind, ret. destruct (c st) as [[[]|e] st']; reflexivity.
Qed.

Lemma load_data_bulk_only (msgs : list json) (st : store) :
  load_data (bulk_folder0 msgs) st = load_all_messages (Parsed (JArr msgs)) st.
Proof. apply (bind_ret_around (load_all_messages (Parsed (JArr msgs)))). Qed.

(** When the data directory holds only a bulk export, each further load
    appends one more copy of every folder's messages: after two loads
    from the empty store every page is its one-load content twice. *)
Theorem reload_doubles_bulk_pages (msgs : list json) (k : pykey) :
  (forall m, In m msgs -> folder_key m <> None) ->
  let once := store_after (bulk_folder0 msgs) data_store0 in
  let twice := store_after (bulk_folder0 msgs) once in
  returns (bulk_folder0 msgs) once
  /\ page_data once k = filter (in_folder k) msgs
  /\ page_data twice k = (page_data once k ++ page_data once k)%list.
Proof.
  intros Hkeys once twice.
  destruct (load_all_messages_groups msgs data_store0 Hkeys eq_refl)
    as (st1 & Hrun1 & Hdata1 & Hpaged1 & _).
  assert (Honce : once = st1).
  { unfold once, store_after. now rewrite load_data_bulk_only, Hrun1. }
  destruct (load_all_messages_groups msgs st1 Hkeys Hpaged1)
    as (st2 & Hrun2 & Hdata2 & _).
  assert (Htwice : twice = st2).
  { unfold twice, store_after. now rewrite Honce, load_data_bulk_only, Hrun2. }
  split; [|split].
  - unfold returns. now rewrite Honce, load_data_bulk_only, Hrun2.
  - rewrite Honce, Hdata1. reflexivity.
  - rewrite Htwice, Hdata2, Honce, Hdata1. reflexivity.
Qed.

Lemma reload_doubles_bulk_pages_witness :
  page_data
    (store_after (bulk_folder0 [msg 4 7; msg 5 8; msg 6 7])
       (store_after (bulk_folder0 [msg 4 7; msg 5 8; msg 6 7]) data_store0))
    (KInt 7)
  = [msg 4 7; msg 6 7; msg 4 7; msg 6 7].
Proof.
  pose proof (reload_doubles_bulk_pages [msg 4 7; msg 5 8; msg 6 7] (KInt 7)) as H.
  cbv zeta in H.
  destruct H as (_ & Honce & Htwice).
  - intros m [<-|[<-|[<-|[]]]]; discriminate.
  - rewrite Htwice, Honce. reflexivity.
Defined.

(** ** Fetching what a bulk export filed *)

Section DictKeys.
Context {K V : Type} (eqb : K -> K -> bool).
Hypothesis eqb_eq : forall a b, eqb a b = true <-> a = b.

Lemma dict_get_In_keys (d : dict K V) (k : K) (v : V) :
  dict_get eqb d k = Some v -> In k (dict_keys d).
Proof.
  induction d as [|[k' v'] d IH]; simpl; [discriminate|].
  destruct (eqb k k') eqn:E; intros H.
  - left. symmetry. now apply eqb_eq.
  - right. now apply IH.
Qed.

Lemma dict_mem_false_keys (d : dict K V) (k : K) :
  dict_mem eqb d k = false -> ~ In k (dict_keys d).
Proof.
  unfold dict_mem. induction d as [|[k' v'] d IH]; simpl; [tauto|].
  destruct (eqb k k') eqn:E; [discriminate|].
  intros H [Heq|Hin].
  - subst k'. rewrite (proj2 (eqb_eq k k) eq_refl) in E. discriminate.
  - now apply IH.
Qed.

Lemma dict_keys_set (d : dict K V) (k : K) (v : V) :
  dict_keys (dict_set eqb d k v)
  = if dict_mem eqb d k then dict_keys d else (dict_keys d ++ [k])%list.
Proof.
  unfold dict_mem. induction d as [|[k' v'] d IH]; simpl; [reflexivity|].
  destruct (eqb k k'); simpl; [reflexivity|].
  rewrite IH. now destruct (dict_get eqb d k).
Qed.

Lemma NoDup_keys_set (d : dict K V) (k : K) (v : V) :
  NoDup (dict_keys d) -> NoDup (dict_keys (dict_set eqb d k v)).
Proof.
  intros Hd. rewrite dict_keys_set.
  destruct (dict_mem eqb d k) eqn:Hmem; [exact Hd|].
  apply NoDup_app; [exact Hd | repeat constructor; intros [] |].
  intros x Hx [Heq|[]]. subst x. now apply (dict_mem_false_keys d k).
Qed.

Lemma In_values_get (d : dict K V) (v : V) :
  NoDup (dict_keys d) -> In v (dict_values d) ->
  exists k, dict_get eqb d k = Some v.
Proof.
  induction d as [|[k' v'] d IH]; simpl; [tauto|].
  intros Hnd [<-|Hin].
  - exists k'. now rewrite (proj2 (eqb_eq k' k') eq_refl).
  - inversion Hnd as [|? ? Hk' Hd]; subst.
    destruct (IH Hd Hin) as (k & Hk). exists k.
    destruct (eqb k k') eqn:E; [|exact Hk].
    apply eqb_eq in E. subst k'.
    elim Hk'. exact (dict_get_In_keys d k v Hk).
Qed.
End DictKeys.

Lemma group_message_keeps_keys (m : json) :
  steps (fun s s' => NoDup (dict_keys (messages s)) ->
                     NoDup (dict_keys (messages s')))
    (group_message m).
Proof.
  set (R := fun s s' : store => NoDup (dict_keys (messages s)) ->
                                NoDup (dict_keys (messages s'))).
  assert (Hrefl : forall s, R s s) by (intros s H; exact H).
  assert (Htrans : forall a b c, R a b -> R b c -> R a c)
    by (intros a b c H1 H2 H; auto).
  assert (Hpage : forall k v s, R s (file_page k v s)).
  { intros k v s H. simpl. now apply NoDup_keys_set; [apply pykey_eqb_eq|]. }
  unfold group_message.
  apply steps_bind; [assumption | intros s; apply Hrefl | intros fld].
  apply steps_bind; [assumption | intros s; apply Hrefl | intros k].
  apply steps_bind; [assumption | intros s; apply Hrefl | intros known].
  apply steps_bind; [assumption | | intros _].
  { destruct (negb known); intros s; [apply Hpage | apply Hrefl]. }
  apply steps_bind; [assumption | intros s; apply Hrefl | intros entry].
  destruct entry as [entry|]; [|intros s; apply Hrefl].
  destruct (Py.is_dict entry); [|intros s; apply Hrefl].
  apply steps_bind; [assumption | intros s; apply Hrefl | intros entry' s].
  apply Hpage.
Qed.

Lemma folder_key_is_dict (m : json) : folder_key m <> None -> Py.is_dict m = true.
Proof. destruct m; intros H; try reflexivity; now elim H. Qed.

(** After a load of a bulk export alone into the empty store, a message
    of the export that is the only one with its id is what
    [get_message] answers for that id, with the mock body when it has
    none. *)
Theorem bulk_message_fetchable (msgs : list json) (m : json) (message_id : Z) :
  (forall x, In x msgs -> folder_key x <> None) ->
  In m msgs ->
  has_id message_id m = true ->
  (forall x, In x msgs -> has_id message_id x = true -> x = m) ->
  get_message (store_after (bulk_folder0 msgs) data_store0) message_id
  = Ok (with_body m message_id, 200).
Proof.
  intros Hkeys Hm Hid Huniq.
  destruct (load_all_messages_groups msgs data_store0 Hkeys eq_refl)
    as (st' & Hrun & Hdata & Hpaged & _ & Hfull & _).
  assert (Hst : store_after (bulk_folder0 msgs) data_store0 = st').
  { unfold store_after. now rewrite load_data_bulk_only, Hrun. }
  rewrite Hst.
  assert (Hnd : NoDup (dict_keys (messages st'))).
  { assert (H := steps_for_each _ (fun s H => H) (fun a b c H1 H2 H => H2 (H1 H))
                   msgs group_message group_message_keeps_keys data_store0).
    destruct msgs as [|x msgs].
    - simpl in Hrun. injection Hrun as <-. constructor.
    - unfold load_all_messages in Hrun. cbn [Py.truthy Py.iter] in Hrun.
      unfold bind at 1, lift in Hrun. rewrite Hrun in H. apply H. constructor. }
  assert (Hfrom : forall v, In v (dict_values (messages st')) ->
                  forall x, In x (page_messages v) -> In x msgs).
  { intros v Hv x Hx.
    destruct (In_values_get pykey_eqb pykey_eqb_eq _ v Hnd Hv) as (k & Hk).
    specialize (Hdata k). unfold page_data in Hdata. rewrite Hk in Hdata.
    simpl in Hdata. rewrite Hdata in Hx. now apply filter_In in Hx. }
  assert (Hwf : forallb well_formed_page (dict_values (messages st')) = true).
  { apply forallb_forall. intros v Hv.
    unfold paged in Hpaged. rewrite forallb_forall in Hpaged.
    destruct (is_page_data v (Hpaged v Hv)) as (kvs & l & -> & Hl).
    specialize (Hfrom _ Hv). rewrite (page_messages_data kvs l Hl) in Hfrom.
    unfold well_formed_page, page_container, Py.has_key, Py.item, dict_mem.
    simpl. rewrite Hl. apply forallb_forall. intros x Hx.
    now apply folder_key_is_dict, Hkeys, Hfrom. }
  assert (Hin : In m (folder_lists st')).
  { destruct (folder_key m) as [k|] eqn:Hk; [|now elim (Hkeys m Hm)].
    assert (Hmk : In m (page_data st' k)).
    { rewrite Hdata. apply filter_In. split; [exact Hm|].
      now apply in_folder_same. }
    unfold page_data in Hmk.
    destruct (dict_get pykey_eqb (messages st') k) as [v|] eqn:Hv; [|destruct Hmk].
    apply in_flat_map. exists v. split; [|exact Hmk].
    exact (dict_get_In _ _ _ _ Hv). }
  unfold get_message. rewrite Hfull. simpl.
  rewrite (scan_folders_find _ _ Hwf). fold (folder_lists st').
  destruct (find (has_id message_id) (folder_lists st')) as [x|] eqn:Hfind.
  - apply find_some in Hfind as [Hx Hxid].
    apply in_flat_map in Hx as (v & Hv & Hxv).
    now rewrite (Huniq x (Hfrom v Hv x Hxv) Hxid).
  - pose proof (List.find_none _ _ Hfind m Hin) as Hcontra.
    congruence.
Qed.

Lemma bulk_message_fetchable_witness :
  get_message
    (store_after (bulk_folder0 [msg 4 7; msg_with_body 5 8 "kept"; msg 6 7]) data_store0) 6
  = Ok (with_body (msg 6 7) 6, 200).
Proof.
  apply bulk_message_fetchable.
  - intros x [<-|[<-|[<-|[]]]]; discriminate.
  - right. right. left. reflexivity.
  - reflexivity.
  - intros x [<-|[<-|[<-|[]]]]; first [reflexivity | discriminate].
Defined.

(** ** Loading, then asking *)

Lemma load_data_files_export (fs : files) (st : store)
    (kvs : list (string * json)) (msg0 fld : json) (rest : list json) (k : pykey) :
  folders_json fs <> Malformed ->
  messages_json fs = Parsed (JObj kvs) ->
  all_messages_json fs = Absent ->
  dict_get String.eqb kvs "data" = Some (JArr (msg0 :: rest)) ->
  Py.get msg0 "folder" = Ok fld ->
  Py.key fld = Ok k ->
  messages (store_after fs st) = dict_set pykey_eqb (messages st) k (JObj kvs).
Proof.
  intros Hfolders Hsrc Hbulk Hdata Hfld Hkey.
  assert (Hstep : forall s, load_messages (messages_json fs) s
                            = (Ok tt, file_page k (JObj kvs) s)).
  { intros s. rewrite Hsrc. unfold load_messages, bind, lift; simpl.
    rewrite Hdata. simpl. rewrite Hfld, Hkey. reflexivity. }
  unfold store_after, load_data. unfold bind at 1.
  destruct (folders_json fs) as [| |j]; simpl; [|congruence|];
    unfold bind at 1; rewrite Hstep; now rewrite load_tail_keeps_messages.
Qed.

(** Load a single-folder export whose first message is in folder f
    (not 0), then ask for page 1 of folder f with a size that covers the
    export: the answer is the whole export in its order, counted, first
    and last. *)
Theorem export_then_first_page_is_export (fs : files) (st : store)
    (kvs : list (string * json)) (msg0 : json) (rest : list json) (f size : Z)
    (sort sort_direction : string) :
  folders_json fs <> Malformed ->
  messages_json fs = Parsed (JObj kvs) ->
  all_messages_json fs = Absent ->
  dict_get String.eqb kvs "data" = Some (JArr (msg0 :: rest)) ->
  Py.get msg0 "folder" = Ok (JNum f) ->
  f <> 0 ->
  Z.of_nat (List.length (msg0 :: rest)) <= size ->
  get_messages (store_after fs st) (Some f) 1 size sort sort_direction
  = Ok (page_body 1 (Z.of_nat (List.length (msg0 :: rest))) true true
          (JArr (msg0 :: rest)), 200).
Proof.
  intros Hfolders Hsrc Hbulk Hdata Hfld Hf Hsize.
  assert (Hentry : dict_get pykey_eqb (messages (store_after fs st)) (KInt f)
                   = Some (JObj kvs)).
  { rewrite (load_data_files_export fs st kvs msg0 (JNum f) rest (KInt f))
      by (assumption || reflexivity).
    apply dict_get_set_same, pykey_eqb_eq. }
  rewrite (get_messages_paginates _ f 1 size sort sort_direction kvs (msg0 :: rest))
    by (assumption || (simpl List.length in Hsize; lia)).
  change (Z.to_nat ((1 - 1) * size)) with 0%nat. cbn [skipn].
  rewrite firstn_all2 by lia.
  replace (Z.of_nat (List.length (msg0 :: rest)) <=? (1 - 1) * size + size)
    with true; [reflexivity|].
  symmetry. apply Z.leb_le. lia.
Qed.

Lemma export_then_first_page_is_export_witness :
  get_messages
    (store_after (mkFiles Absent (Parsed (JObj export_folder7)) Absent Absent Absent)
       sample_store)
    (Some 7) 1 50 "date" "desc"
  = Ok (page_body 1 (Z.of_nat (List.length [msg 1 7; msg 2 7])) true true
          (JArr [msg 1 7; msg 2 7]), 200).
Proof.
  apply (export_then_first_page_is_export
           (mkFiles Absent (Parsed (JObj export_folder7)) Absent Absent Absent)
           sample_store export_folder7 (msg 1 7) [msg 2 7] 7 50 "date" "desc");
    first [reflexivity | discriminate | simpl; lia].
Defined.

Lemma load_data_returns_inv (fs : files) (st : store) :
  returns fs st ->
  exists st3,
    fst (load_full_message (full_message_json fs) st3) = Ok tt
    /\ full_messages (store_after fs st)
       = full_messages (snd (load_full_message (full_message_json fs) st3)).
Proof.
  unfold returns, store_after, load_data, bind.
  destruct (load_folders (folders_json fs) st) as [[[]|e1] s1]; [|discriminate].
  destruct (load_messages (messages_json fs) s1) as [[[]|e2] s2]; [|discriminate].
  destruct (load_all_messages (all_messages_json fs) s2) as [[[]|e3] s3];
    [|discriminate].
  intros H. exists s3.
  destruct (load_full_message (full_message_json fs) s3) as [[[]|e4] s4] eqn:H4;
    [|discriminate].
  split; [reflexivity|]. simpl.
  exact (load_localstorage_keeps full_messages (localstorage_data_json fs)
           (fun _ _ => eq_refl) s4).
Qed.

(** When a load returns, the message of full_message.json is what
    [get_message] answers for its id (an integer other than 0), as it
    is in the file. *)
Theorem full_message_then_get (fs : files) (st : store)
    (kvs : list (string * json)) (n : Z) :
  returns fs st ->
  full_message_json fs = Parsed (JObj kvs) ->
  dict_get String.eqb kvs "id" = Some (JNum n) ->
  n <> 0 ->
  get_message (store_after fs st) n = Ok (JObj kvs, 200).
Proof.
  intros Hret Hsrc Hid Hn.
  destruct (load_data_returns_inv fs st Hret) as (st3 & _ & Hfull).
  unfold get_message. rewrite Hfull, Hsrc.
  unfold load_full_message, bind, lift. simpl. rewrite Hid. simpl.
  apply Z.eqb_neq in Hn. rewrite Hn. simpl.
  now rewrite (dict_get_set_same _ _ pykey_eqb pykey_eqb_eq).
Qed.

Lemma full_message_then_get_witness :
  get_message (store_after only_full_message sample_store) 4
  = Ok (msg_with_body 4 7 "a fourth message", 200).
Proof.
  apply (full_message_then_get only_full_message sample_store
           [("id", JNum 4); ("folder", JNum 7); ("body", JStr "a fourth message")] 4);
    first [reflexivity | discriminate].
Defined.

(** A full message whose id is missing, null, 0, empty or false is read
    and dropped: the step returns and the store is as before. *)
Theorem load_full_message_without_id (full_msg id : json) (st : store) :
  Py.get full_msg "id" = Ok id ->
  Py.truthy id = false ->
  load_full_message (Parsed full_msg) st = (Ok tt, st).
Proof.
  intros Hid Hfalsy. unfold load_full_message, bind, lift.
  now rewrite Hid, Hfalsy.
Qed.

Lemma load_full_message_without_id_witness :
  load_full_message (Parsed (msg_with_body 0 7 "never filed")) sample_store
  = (Ok tt, sample_store)
  /\ load_full_message (Parsed (JObj [("body", JStr "no id at all")])) sample_store
     = (Ok tt, sample_store).
Proof.
  split.
  - apply (load_full_message_without_id _ (JNum 0)); reflexivity.
  - apply (load_full_message_without_id _ JNull); reflexivity.
Defined.

(** folders.json is taken over whole by the first step of a load, so it
    is in the store even when a later file stops the load; it is then
    served verbatim when it is a FolderSet, and replaced by the default
    folders when it is an empty or null document. *)
Theorem folders_then_get (fs : files) (st : store) (j : json)
    (includeFolderCounts : option string) :
  folders_json fs = Parsed j ->
  folders (store_after fs st) = j
  /\ (folder_set j = true ->
      get_folders (store_after fs st) includeFolderCounts = Ok (j, 200))
  /\ (Py.truthy j = false ->
      get_folders (store_after fs st) includeFolderCounts
      = Ok (default_folders, 200)).
Proof.
  intros Hsrc.
  assert (Hfolders : folders (store_after fs st) = j).
  { unfold store_after, load_data. rewrite Hsrc. unfold bind at 1. simpl.
    assert (H : keeps folders
                  (bind (load_messages (messages_json fs))
                     (fun _ => bind (load_all_messages (all_messages_json fs))
                        (fun _ => bind (load_full_message (full_message_json fs))
                           (fun _ => load_localstorage (localstorage_data_json fs)))))).
    { repeat (apply keeps_bind; [|intros _]).
      - now apply load_messages_keeps.
      - now apply load_all_messages_keeps.
      - now apply load_full_message_keeps.
      - now apply load_localstorage_keeps. }
    now rewrite H. }
  split; [exact Hfolders|]. unfold get_folders. rewrite Hfolders. split.
  - intros H. now rewrite (folder_set_truthy j H).
  - intros H. now rewrite H.
Qed.

Lemma folders_then_get_witness :
  get_folders
    (store_after (mkFiles (Parsed captured_folders) Malformed Absent Absent Absent)
       data_store0)
    None
  = Ok (captured_folders, 200)
  /\ get_folders
       (store_after (mkFiles (Parsed (JObj [])) Absent Absent Absent Absent)
          data_store0)
       None
     = Ok (default_folders, 200).
Proof.
  split.
  - apply (proj1 (proj2 (folders_then_get
                           (mkFiles (Parsed captured_folders) Malformed Absent Absent Absent)
                           data_store0 captured_folders None eq_refl))).
    reflexivity.
  - apply (proj2 (proj2 (folders_then_get
                           (mkFiles (Parsed (JObj [])) Absent Absent Absent Absent)
                           data_store0 (JObj []) None eq_refl))).
    reflexivity.
Defined.

Lemma reload_without_bulk_export_witness :
  load_data
    (mkFiles (Parsed captured_folders) (Parsed (JObj export_folder7)) Absent
       (Parsed (msg_with_body 4 7 "a fourth message")) Absent)
    (store_after
       (mkFiles (Parsed captured_folders) (Parsed (JObj export_folder7)) Absent
          (Parsed (msg_with_body 4 7 "a fourth message")) Absent)
       sample_store)
  = load_data
      (mkFiles (Parsed captured_folders) (Parsed (JObj export_folder7)) Absent
         (Parsed (msg_with_body 4 7 "a fourth message")) Absent)
      sample_store.
Proof.
  apply reload_without_bulk_export. reflexivity.
Defined.

(** ** The fallback answer of [get_message] *)

Lemma has_id_with_body (message_id : Z) (m : json) :
  has_id message_id m = true ->
  has_id message_id (with_body m message_id) = true
  /\ Py.has_key (with_body m message_id) "body" = true.
Proof.
  intros Hid. destruct (has_id_is_dict _ _ Hid) as [kvs ->].
  unfold with_body.
  destruct (dict_mem String.eqb kvs "body") eqn:Hbody; [now split|].
  split.
  - unfold has_id, Py.get in *.
    now rewrite (dict_get_set_other _ _ String.eqb String.eqb_eq)
      by discriminate.
  - unfold Py.has_key, dict_mem.
    now rewrite (dict_get_set_same _ _ String.eqb String.eqb_eq).
Qed.

(** On a store of the data model, an id that is in no full message is
    answered without an exception, either by 404 with the error body or
    by 200 with a message that carries the id asked for and a body. *)
Theorem get_message_fallback_answer (st : store) (message_id : Z) :
  well_formed st = true ->
  dict_get pykey_eqb (full_messages st) (KInt message_id) = None ->
  get_message st message_id = Ok (error_body "Message not found", 404)
  \/ exists r,
       get_message st message_id = Ok (r, 200)
       /\ has_id message_id r = true
       /\ Py.has_key r "body" = true.
Proof.
  intros Hwf Hnone. unfold get_message. rewrite Hnone.
  rewrite (scan_folders_find _ _ Hwf).
  destruct (find (has_id message_id) (flat_map page_messages (dict_values (messages st))))
    as [m|] eqn:Hfind; [right | now left].
  apply find_some in Hfind as [_ Hid].
  exists (with_body m message_id). split; [reflexivity|].
  now apply has_id_with_body.
Qed.

Lemma get_message_fallback_answer_witness :
  get_message sample_store 3 = Ok (error_body "Message not found", 404)
  \/ exists r,
       get_message sample_store 3 = Ok (r, 200)
       /\ has_id 3 r = true
       /\ Py.has_key r "body" = true.
Proof.
  apply get_message_fallback_answer; reflexivity.
Defined.

(** ** The access gate and the open routes *)

(** The gate decides on the Authorization header and the configuration
    alone: either every view is run and its answer passed on, or no view
    is run and the answer is 401 with one of three reasons. *)
Theorem require_auth_decides_before_view (cfg : config) (auth_header : option string) :
  (forall f, require_auth cfg auth_header f = f)
  \/ exists reason,
       In reason ["No Authorization header";
                  "Invalid Authorization header format";
                  "Invalid token"]
       /\ forall f, require_auth cfg auth_header f = Ok (error_body reason, 401).
Proof.
  unfold require_auth.
  destruct auth_header as [h|].
  - destruct (String.eqb h "").
    + right. exists "No Authorization header". split; [now left | reflexivity].
    + destruct (String.prefix "Bearer " h); simpl.
      * destruct (negb _ && strict cfg).
        -- right. exists "Invalid token".
           split; [right; right; now left | reflexivity].
        -- now left.
      * right. exists "Invalid Authorization header format".
        split; [right; now left | reflexivity].
  - right. exists "No Authorization header". split; [now left | reflexivity].
Qed.

(** What /health reports agrees with what the resolvers then do: with
    no folders reported the default folder set is served, with no
    messages reported every listing is the empty page, and with neither
    messages nor full messages every message id gets 404. *)
Theorem health_check_matches_resolvers (st : store) :
  exists f m fm,
    health_check st
    = Ok (JObj [("status", JStr "ok");
                ("service", JStr "ofw-mock-server");
                ("data_loaded",
                 JObj [("folders", JBool f);
                       ("messages", JBool m);
                       ("full_messages", JBool fm)])], 200)
    /\ (f = false ->
        forall q, get_folders st q = Ok (default_folders, 200))
    /\ (m = false ->
        forall folder_id page size sort sort_direction,
          get_messages st folder_id page size sort sort_direction
          = Ok (page_body page 0 true true (JArr []), 200))
    /\ (m = false -> fm = false ->
        forall message_id,
          get_message st message_id = Ok (error_body "Message not found", 404)).
Proof.
  eexists. eexists. eexists. split; [reflexivity|].
  split; [|split].
  - intros Hf q. unfold get_folders.
    destruct (folders st); try discriminate. reflexivity.
  - intros Hm folder_id page size sort sort_direction.
    destruct (messages st) as [|e d] eqn:Hmsgs.
    + apply get_messages_unknown. rewrite Hmsgs. now destruct folder_id.
    + simpl in Hm. discriminate.
  - intros Hm Hfm message_id. unfold get_message.
    destruct (messages st) as [|e d]; [|simpl in Hm; discriminate].
    destruct (full_messages st) as [|e d]; [|simpl in Hfm; discriminate].
    reflexivity.
Qed.

Lemma health_check_matches_resolvers_witness :
  get_folders data_store0 (Some "true") = Ok (default_folders, 200)
  /\ get_messages data_store0 (Some 7) 3 10 "date" "asc"
     = Ok (page_body 3 0 true true (JArr []), 200)
  /\ get_message data_store0 12 = Ok (error_body "Message not found", 404).
Proof.
  destruct (health_check_matches_resolvers data_store0)
    as (f & m & fm & Hhealth & Hf & Hm & Hboth).
  injection Hhealth as <- <- <-.
  split; [|split].
  - apply Hf. reflexivity.
  - apply Hm. reflexivity.
  - apply Hboth; reflexivity.
Defined.

(** With no snapshot, or with a snapshot that is an object, the local
    storage route answers 200 with an object that has an [auth] entry:
    the built-in identity when there is no snapshot (or an empty one),
    the snapshot itself when it has its own [auth], and otherwise the
    snapshot with the configured token added and every other entry
    kept. *)
Theorem get_localstorage_has_auth (cfg : config) (st : store)
    (kvs : list (string * json)) :
  localstorage st = JNull \/ localstorage st = JObj kvs ->
  exists body,
    get_localstorage cfg st = Ok (JObj body, 200)
    /\ dict_mem String.eqb body "auth" = true
    /\ (localstorage st = JNull \/ localstorage st = JObj [] ->
        body = [("auth", JStr (AUTH_TOKEN cfg));
                ("userId", JNum 123456);
                ("firstName", JStr "Mock");
                ("lastName", JStr "User")])
    /\ (localstorage st = JObj kvs ->
        dict_mem String.eqb kvs "auth" = true -> body = kvs)
    /\ (localstorage st = JObj kvs -> kvs <> [] ->
        dict_mem String.eqb kvs "auth" = false ->
        dict_get String.eqb body "auth" = Some (JStr (AUTH_TOKEN cfg))
        /\ forall key, key <> "auth" ->
             dict_get String.eqb body key = dict_get String.eqb kvs key).
Proof.
  intros [Hnone|Hobj]; unfold get_localstorage.
  - rewrite Hnone. simpl. eexists. split; [reflexivity|].
    split; [reflexivity|]. split; [reflexivity|]. split; intros; discriminate.
  - rewrite Hobj. destruct kvs as [|kv kvs'].
    + simpl. eexists. split; [reflexivity|].
      split; [reflexivity|]. split; [reflexivity|].
      split; [discriminate|]. intros _ H. now elim H.
    + cbn [Py.truthy].
      destruct (dict_mem String.eqb (kv :: kvs') "auth") eqn:Hauth; cbn [negb].
      * eexists. split; [reflexivity|]. split; [exact Hauth|].
        split; [intros [H|H]; discriminate|].
        split; [reflexivity | discriminate].
      * eexists. split; [reflexivity|].
        assert (Hset := dict_get_set_same _ _ String.eqb String.eqb_eq
                          (kv :: kvs') "auth" (JStr (AUTH_TOKEN cfg))).
        split; [unfold dict_mem; now rewrite Hset|].
        split; [intros [H|H]; discriminate|].
        split; [discriminate|]. intros _ _ _. split; [exact Hset|].
        intros key Hkey.
        now apply (dict_get_set_other _ _ String.eqb String.eqb_eq).
Qed.

Lemma get_localstorage_has_auth_witness :
  (exists body,
     get_localstorage (mock_config None)
       (mkStore JNull [] [] (JObj [("userId", JNum 42); ("firstName", JStr "Ann")]))
     = Ok (JObj body, 200)
     /\ dict_get String.eqb body "auth" = Some (JStr "mock_auth_token_12345")
     /\ dict_get String.eqb body "userId" = Some (JNum 42))
  /\ get_localstorage (mock_config None) data_store0
     = Ok (JObj [("auth", JStr "mock_auth_token_12345");
                 ("userId", JNum 123456);
                 ("firstName", JStr "Mock");
                 ("lastName", JStr "User")], 200)
  /\ get_localstorage (mock_config None)
       (mkStore JNull [] [] (JObj [("auth", JStr "kept"); ("userId", JNum 42)]))
     = Ok (JObj [("auth", JStr "kept"); ("userId", JNum 42)], 200).
Proof.
  split; [|split].
  - destruct (get_localstorage_has_auth (mock_config None)
                (mkStore JNull [] [] (JObj [("userId", JNum 42); ("firstName", JStr "Ann")]))
                [("userId", JNum 42); ("firstName", JStr "Ann")]
                (or_intror eq_refl))
      as (body & Hrun & _ & _ & _ & Hadd).
    exists body. split; [exact Hrun|].
    destruct (Hadd eq_refl ltac:(discriminate) eq_refl) as [Hauth Hkeep].
    split; [exact Hauth|].
    rewrite (Hkeep "userId" ltac:(discriminate)). reflexivity.
  - destruct (get_localstorage_has_auth (mock_config None) data_store0 []
                (or_introl eq_refl))
      as (body & Hrun & _ & Hdefault & _).
    rewrite Hrun, (Hdefault (or_introl eq_refl)). reflexivity.
  - destruct (get_localstorage_has_auth (mock_config None)
                (mkStore JNull [] [] (JObj [("auth", JStr "kept"); ("userId", JNum 42)]))
                [("auth", JStr "kept"); ("userId", JNum 42)]
                (or_intror eq_refl))
      as (body & Hrun & _ & _ & Hkept & _).
    rewrite Hrun, (Hkept eq_refl eq_refl). reflexivity.
Defined.

(** A snapshot that is neither null, empty nor an object breaks the
    local storage route: a string, a number or [true] has no [copy], and
    a list cannot take the [auth] entry unless it already holds the
    string "auth". *)
Theorem get_localstorage_bad_snapshot (cfg : config) (st : store) :
  Py.truthy (localstorage st) = true ->
  Py.is_dict (localstorage st) = false ->
  match localstorage st with
  | JArr l =>
      if list_has_str l "auth"
      then get_localstorage cfg st = Ok (JArr l, 200)
      else get_localstorage cfg st = Raise TypeError
  | _ => get_localstorage cfg st = Raise AttributeError
  end.
Proof.
  intros Htruthy Hdict. unfold get_localstorage. rewrite Htruthy.
  destruct (localstorage st) as [| | | |l|]; try discriminate; try reflexivity.
  now destruct (list_has_str l "auth").
Qed.

Lemma get_localstorage_bad_snapshot_witness :
  get_localstorage (mock_config None) (mkStore JNull [] [] (JStr "token=abc"))
  = Raise AttributeError
  /\ get_localstorage (mock_config None) (mkStore JNull [] [] (JArr [JNum 1]))
     = Raise TypeError.
Proof.
  split.
  - apply (get_localstorage_bad_snapshot (mock_config None)
             (mkStore JNull [] [] (JStr "token=abc"))); reflexivity.
  - apply (get_localstorage_bad_snapshot (mock_config None)
             (mkStore JNull [] [] (JArr [JNum 1]))); reflexivity.
Defined.

(** ** More on what loads do to the store *)

Lemma truthy_key (id : json) (k : pykey) :
  Py.key id = Ok k -> Py.truthy id = true -> falsy_key k = false.
Proof.
  destruct id as [|b|n|s| |]; simpl; try discriminate;
    intros H; injection H as <-; simpl; intros Ht.
  - now rewrite Ht.
  - now apply negb_true_iff.
  - now apply negb_true_iff.
Qed.

(** No load ever files a full message under a falsy id: in every store
    the server can reach, full_messages has no entry for 0, for null or
    for the empty string, so such an id is never answered from there. *)
Theorem full_messages_without_falsy_id (st : store) (k : pykey) :
  reachable st ->
  falsy_key k = true ->
  dict_get pykey_eqb (full_messages st) k = None.
Proof.
  intros Hreach. revert k.
  induction Hreach as [|fs st _ IH]; [reflexivity|].
  revert st IH.
  change (steps (fun s s' =>
                   (forall k, falsy_key k = true ->
                              dict_get pykey_eqb (full_messages s) k = None) ->
                   forall k, falsy_key k = true ->
                             dict_get pykey_eqb (full_messages s') k = None)
            (load_data fs)).
  apply steps_load_data; auto.
  - intros [| |j] s; simpl; auto.
  - intros src s.
    now rewrite (load_messages_keeps full_messages src (fun _ _ => eq_refl) s).
  - intros m s.
    assert (H : keeps full_messages (group_message m)).
    { unfold group_message. frame; apply keeps_modify; intros []; reflexivity. }
    now rewrite H.
  - intros [| |j] s; simpl; auto.
    unfold bind, lift.
    destruct (Py.get j "id") as [id|]; simpl; auto.
    destruct (Py.truthy id) eqn:Ht; simpl; auto.
    destruct (Py.key id) as [k0|] eqn:Hk0; simpl; auto.
    intros IH k Hk.
    rewrite (dict_get_set_other _ _ pykey_eqb pykey_eqb_eq); [now apply IH|].
    intros ->. rewrite (truthy_key id k0 Hk0 Ht) in Hk. discriminate.
  - intros [| |j] s; simpl; auto.
Qed.

Lemma full_messages_without_falsy_id_witness :
  dict_get pykey_eqb
    (full_messages
       (store_after
          (mkFiles Absent Absent Absent (Parsed (msg_with_body 0 7 "never filed")) Absent)
          data_store0))
    (KInt 0)
  = None.
Proof.
  apply full_messages_without_falsy_id; [|reflexivity].
  apply reachable_load, reachable_start.
Defined.

(** Page 0 holds no message: its slice ends where the list starts.  It
    is not flagged first, and is flagged last only for an empty list. *)
Theorem get_messages_page_zero (st : store) (n size : Z)
    (sort sort_direction : string) (kvs : list (string * json)) (l : list json) :
  n <> 0 ->
  dict_get pykey_eqb (messages st) (KInt n) = Some (JObj kvs) ->
  dict_get String.eqb kvs "data" = Some (JArr l) ->
  0 < size ->
  get_messages st (Some n) 0 size sort sort_direction
  = Ok (page_body 0 0 false (match l with [] => true | _ => false end)
          (JArr []), 200).
Proof.
  intros Hn Hv Hdata Hsize.
  unfold get_messages. rewrite (folder_known_lookup st n _ Hn Hv), Hv. simpl.
  unfold dict_mem. rewrite Hdata. simpl.
  change (match size with 0 => 0 | Z.pos y' => Z.neg y' | Z.neg y' => Z.pos y' end)
    with (- size).
  replace (- size + size) with 0 by lia.
  assert (Hslice : Py.slice_list l (- size) 0 = []).
  { unfold Py.slice_list, Py.clamp.
    destruct (Z.ltb_spec (- size) 0) as [_|?]; [|lia]. simpl.
    rewrite (Z.min_l 0) by lia.
    replace (Z.to_nat (0 - Z.max (- size + Z.of_nat (List.length l)) 0))
      with 0%nat by lia.
    reflexivity. }
  rewrite Hslice. simpl.
  now destruct l.
Qed.

Lemma get_messages_page_zero_witness :
  get_messages sample_store (Some 7) 0 2 "date" "desc"
  = Ok (page_body 0 0 false false (JArr []), 200).
Proof.
  apply (get_messages_page_zero sample_store 7 2 "date" "desc"
           [("data", JArr [msg 1 7; msg_with_body 2 7 "hello"; msg 3 7]);
            ("metadata", JObj [])]
           [msg 1 7; msg_with_body 2 7 "hello"; msg 3 7]);
    first [reflexivity | discriminate | lia].
Defined.

Lemma get_messages_beyond_range_witness :
  get_messages sample_store (Some 7) 4 2 "date" "desc"
  = Ok (page_body 4 0 (4 =? 1) true (JArr []), 200).
Proof.
  apply (get_messages_beyond_range sample_store 7 4 2 "date" "desc"
           [("data", JArr [msg 1 7; msg_with_body 2 7 "hello"; msg 3 7]);
            ("metadata", JObj [])]
           [msg 1 7; msg_with_body 2 7 "hello"; msg 3 7]);
    first [reflexivity | discriminate | simpl; lia].
Defined.
